(** * wayrecon: the query / filter / format pipeline of [wayrecon.py]

    A shallow embedding of the data-affecting functions of
    [WaybackCDXQuery] and of the exit-status logic of [main].

    Conventions of the embedding.
    - A Python [str] is a [string]; a character is a code point below 256
      (the 8-bit [ascii] type).  On that range [str.lower], [str.strip],
      [str.isspace] and [int] act character by character as written below.
      Code points from 256 on are outside the embedding.
    - A function that can raise returns a [result]: [Ok v] or [Raise e]
      with [e] the class of the Python exception.
    - The spinner, the progress bar, the banner and every [print] are
      terminal decoration: they carry no data and are left out. *)

From Stdlib Require Import String Ascii List Bool ZArith NArith Lia SpecFloat.
Import ListNotations.

Open Scope string_scope.
Open Scope Z_scope.

(** ** Exceptions and results *)

(** The exception classes the pipeline can see, with the part of the class
    hierarchy that the [except] clauses of [main] tell apart. *)
Inductive exn : Type :=
| RequestException      (* requests.exceptions.RequestException and subclasses *)
| JSONDecodeError       (* json.JSONDecodeError *)
| KeyboardInterrupt
| SystemExit (code : Z)
| OSError               (* IOError is an alias of OSError *)
| ValueError
| TypeError
| IndexError
| AttributeError
| OverflowError.

Inductive result (A : Type) : Type :=
| Ok (a : A)
| Raise (e : exn).

Arguments Ok {A} a.
Arguments Raise {A} e.

Definition bind {A B : Type} (m : result A) (k : A -> result B) : result B :=
  match m with
  | Ok a => k a
  | Raise e => Raise e
  end.

Notation "x <- m ;; k" := (bind m (fun x => k))
  (at level 61, m at next level, right associativity).

(** ** Python [str] methods on code points below 256 *)

Module Str.

Definition code (c : ascii) : N := N_of_ascii c.

Definition between (lo hi n : N) : bool := (N.leb lo n && N.leb n hi)%bool.

(** [str.isspace] of one character: TAB..CR, FS..US, SPACE, NEL, NBSP. *)
Definition isspace (c : ascii) : bool :=
  let n := code c in
  (between 9 13 n || between 28 32 n || N.eqb n 133 || N.eqb n 160)%bool.

(** Upper-case letters of the range: A..Z, and U+00C0..U+00DE but U+00D7. *)
Definition isupper (c : ascii) : bool :=
  let n := code c in
  (between 65 90 n || (between 192 222 n && negb (N.eqb n 215)))%bool.

Definition lower_char (c : ascii) : ascii :=
  if isupper c then ascii_of_N (code c + 32) else c.

(** [s.lower()] *)
Fixpoint lower (s : string) : string :=
  match s with
  | EmptyString => EmptyString
  | String c s' => String (lower_char c) (lower s')
  end.

(** [s.lstrip(chars)], the set [chars] given as a predicate. *)
Fixpoint lstrip_where (p : ascii -> bool) (s : string) : string :=
  match s with
  | EmptyString => EmptyString
  | String c s' => if p c then lstrip_where p s' else s
  end.

(** [s.rstrip(chars)] *)
Fixpoint rstrip_where (p : ascii -> bool) (s : string) : string :=
  match s with
  | EmptyString => EmptyString
  | String c s' =>
      match rstrip_where p s' with
      | EmptyString => if p c then EmptyString else String c EmptyString
      | r => String c r
      end
  end.

(** [s.strip()] *)
Definition strip (s : string) : string :=
  rstrip_where isspace (lstrip_where isspace s).

(** [s.startswith(p)] *)
Definition startswith (s p : string) : bool := prefix p s.

(** [s.endswith(suf)]: some tail of [s] is [suf]. *)
Fixpoint endswith (s suf : string) : bool :=
  (String.eqb s suf
   || match s with
      | EmptyString => false
      | String _ s' => endswith s' suf
      end)%bool.

(** [sub in s] *)
Fixpoint contains (sub s : string) : bool :=
  (prefix sub s
   || match s with
      | EmptyString => false
      | String _ s' => contains sub s'
      end)%bool.

(** [c in s] for one character. *)
Fixpoint mem (c : ascii) (s : string) : bool :=
  match s with
  | EmptyString => false
  | String d s' => (Ascii.eqb c d || mem c s')%bool
  end.

(** [s[n:]] *)
Fixpoint drop (n : nat) (s : string) : string :=
  match n, s with
  | O, _ => s
  | S _, EmptyString => EmptyString
  | S n', String _ s' => drop n' s'
  end.

(** The characters of [s] before the first one that satisfies [p]. *)
Fixpoint take_until (p : ascii -> bool) (s : string) : string :=
  match s with
  | EmptyString => EmptyString
  | String c s' => if p c then EmptyString else String c (take_until p s')
  end.

(** The rest of [s] from the first character that satisfies [p]. *)
Fixpoint drop_until (p : ascii -> bool) (s : string) : string :=
  match s with
  | EmptyString => EmptyString
  | String c s' => if p c then s else drop_until p s'
  end.

(** [s.replace(c, "")] for each [c] that satisfies [p]. *)
Fixpoint remove_where (p : ascii -> bool) (s : string) : string :=
  match s with
  | EmptyString => EmptyString
  | String c s' =>
      if p c then remove_where p s' else String c (remove_where p s')
  end.

Fixpoint forallb (p : ascii -> bool) (s : string) : bool :=
  match s with
  | EmptyString => true
  | String c s' => (p c && forallb p s')%bool
  end.

(** [s.split(sep)] for a one-character separator. *)
Fixpoint split (sep : ascii) (s : string) : list string :=
  match s with
  | EmptyString => [EmptyString]
  | String c s' =>
      if Ascii.eqb c sep then EmptyString :: split sep s'
      else match split sep s' with
           | h :: t => String c h :: t
           | [] => [String c EmptyString]
           end
  end.

(** [sep.join(parts)] *)
Definition join (sep : string) (parts : list string) : string :=
  String.concat sep parts.

(** [s.ljust(w)] *)
Fixpoint spaces (n : nat) : string :=
  match n with
  | O => EmptyString
  | S n' => String " " (spaces n')
  end.

Definition ljust (s : string) (w : nat) : string :=
  s ++ spaces (w - String.length s).

(** [c * n] *)
Fixpoint repeat (c : ascii) (n : nat) : string :=
  match n with
  | O => EmptyString
  | S n' => String c (repeat c n')
  end.

(** A string that is empty or starts outside [p]. *)
Definition clean_start (p : ascii -> bool) (s : string) : bool :=
  match s with
  | EmptyString => true
  | String c _ => negb (p c)
  end.

End Str.

(** ** [urllib.parse.urlparse(url).netloc] *)

Module UrlParse.

Definition is_c0_or_space (c : ascii) : bool := N.leb (Str.code c) 32.

(** TAB, LF and CR are deleted from the URL before it is split. *)
Definition is_unsafe (c : ascii) : bool :=
  let n := Str.code c in (N.eqb n 9 || N.eqb n 10 || N.eqb n 13)%bool.

Definition is_ascii_alpha (c : ascii) : bool :=
  let n := Str.code c in (Str.between 65 90 n || Str.between 97 122 n)%bool.

Definition is_digit (c : ascii) : bool := Str.between 48 57 (Str.code c).

(** [scheme_chars]: letters, digits, [+], [-] and [.]. *)
Definition is_scheme_char (c : ascii) : bool :=
  let n := Str.code c in
  (is_ascii_alpha c || is_digit c
   || N.eqb n 43 || N.eqb n 45 || N.eqb n 46)%bool.

Definition is_colon (c : ascii) : bool := Ascii.eqb c ":".

(** The delimiters that end the network location: [/], [?] and [#]. *)
Definition is_netloc_end (c : ascii) : bool :=
  (Ascii.eqb c "/" || Ascii.eqb c "?" || Ascii.eqb c "#")%bool.

(** The URL after its scheme has been split off, when it has one:
    [url.find(':') > 0], the first character is an ASCII letter and every
    character before the colon is a scheme character. *)
Definition after_scheme (url : string) : string :=
  let head := Str.take_until is_colon url in
  match Str.drop_until is_colon url, head with
  | String _ rest, String c0 _ =>
      if (is_ascii_alpha c0 && Str.forallb is_scheme_char head)%bool
      then rest else url
  | _, _ => url
  end.

Section Netloc.

(** The check of a bracketed host ([_check_bracketed_netloc], an IPv6 or
    IPvFuture literal) belongs to the interpreter's library and is taken
    as given; releases without the check accept every such host. *)
Variable bracketed_netloc_ok : string -> bool.

Definition netloc (url : string) : result string :=
  let url := Str.lstrip_where is_c0_or_space url in
  let url := Str.remove_where is_unsafe url in
  let url := after_scheme url in
  if Str.startswith url "//" then
    let nl := Str.take_until is_netloc_end (Str.drop 2 url) in
    let lb := Str.mem "[" nl in
    let rb := Str.mem "]" nl in
    if ((lb && negb rb) || (rb && negb lb))%bool then Raise ValueError
    else if (lb && rb && negb (bracketed_netloc_ok nl))%bool
         then Raise ValueError
         else Ok nl
  else Ok EmptyString.

End Netloc.

End UrlParse.

(** ** Domain normalizer *)

Section Normalizer.

Variable bracketed_netloc_ok : string -> bool.

(** [WaybackCDXQuery.normalize_domain] *)
Definition normalize_domain (domain : string) : result string :=
  domain <- (if (Str.startswith domain "http://"
                 || Str.startswith domain "https://")%bool
             then UrlParse.netloc bracketed_netloc_ok domain
             else Ok domain) ;;
  let domain := if Str.startswith domain "www." then Str.drop 4 domain
                else domain in
  Ok (Str.strip (Str.lower domain)).

End Normalizer.

(** ** Python values

    What [response.json()] can return, and so what a record can be at run
    time: the filters inspect the shape of each record with [isinstance]. *)

#[warnings="-register-all"] Inductive value : Type :=
| VNone
| VBool (b : bool)
| VInt (z : Z)
| VFloat (f : spec_float)
| VStr (s : string)
| VList (items : list value)
| VDict (entries : list (string * value)).

Module Py.

(** [bool(v)], the truth value that [if not data] tests. *)
Definition truthy (v : value) : bool :=
  match v with
  | VNone => false
  | VBool b => b
  | VInt z => negb (Z.eqb z 0)
  | VFloat (S754_zero _) => false
  | VFloat _ => true
  | VStr s => negb (String.eqb s "")
  | VList l => match l with [] => false | _ :: _ => true end
  | VDict d => match d with [] => false | _ :: _ => true end
  end.

Fixpoint chars (s : string) : list value :=
  match s with
  | EmptyString => []
  | String c s' => VStr (String c EmptyString) :: chars s'
  end.

(** The items [for x in v] runs through. *)
Definition iter (v : value) : result (list value) :=
  match v with
  | VList l => Ok l
  | VStr s => Ok (chars s)
  | VDict d => Ok (map (fun kv => VStr (fst kv)) d)
  | _ => Raise TypeError
  end.

(** [len(v)] *)
Definition len (v : value) : result nat :=
  match v with
  | VList l => Ok (List.length l)
  | VStr s => Ok (String.length s)
  | VDict d => Ok (List.length d)
  | _ => Raise TypeError
  end.

(** [v.lower()]: only a [str] has the method. *)
Definition lower (v : value) : result string :=
  match v with
  | VStr s => Ok (Str.lower s)
  | _ => Raise AttributeError
  end.

Definition digit_value (c : ascii) : Z := Z.of_N (Str.code c) - 48.

(** The digits of a decimal literal; one underscore may separate two
    digits.  [after_digit] tells whether the last character read was a
    digit. *)
Fixpoint digits (acc : Z) (after_digit : bool) (s : string) : option Z :=
  match s with
  | EmptyString => if after_digit then Some acc else None
  | String c s' =>
      if UrlParse.is_digit c then digits (10 * acc + digit_value c) true s'
      else if (Ascii.eqb c "_" && after_digit)%bool then digits acc false s'
      else None
  end.

(** [int(s)] for a [str]: surrounding white space, an optional sign, then
    the digits.  (The interpreter's configurable cap on the number of
    digits is not part of the embedding.) *)
Definition int_of_string (s : string) : option Z :=
  match Str.strip s with
  | String "-" ds => option_map Z.opp (digits 0 false ds)
  | String "+" ds => digits 0 false ds
  | ds => digits 0 false ds
  end.

(** [int(x)] for a [float]: truncation toward zero. *)
Definition int_of_float (f : spec_float) : result Z :=
  match f with
  | S754_zero _ => Ok 0
  | S754_infinity _ => Raise OverflowError
  | S754_nan => Raise ValueError
  | S754_finite s m e =>
      let mag := if 0 <=? e then Z.shiftl (Zpos m) e
                 else Z.shiftr (Zpos m) (- e) in
      Ok (if s then - mag else mag)
  end.

(** [int(v)] *)
Definition int (v : value) : result Z :=
  match v with
  | VStr s => match int_of_string s with
              | Some z => Ok z
              | None => Raise ValueError
              end
  | VInt z => Ok z
  | VBool b => Ok (if b then 1 else 0)
  | VFloat f => int_of_float f
  | VNone | VList _ | VDict _ => Raise TypeError
  end.

(** [z in codes] *)
Definition mem_int (z : Z) (codes : list Z) : bool :=
  existsb (Z.eqb z) codes.

End Py.

(** ** Query URL builder *)

(** [WaybackCDXQuery.build_cdx_url].  [params] is a dict literal: its items
    come out in the order they are written. *)
Definition build_cdx_url (domain : string) (text_mode : bool) : string :=
  let base_url := "https://web.archive.org/cdx/search/cdx" in
  let params :=
    if text_mode then
      [("url", "*." ++ domain ++ "/*"); ("collapse", "urlkey");
       ("output", "text"); ("fl", "original")]
    else
      [("url", "*." ++ domain ++ "/*"); ("collapse", "urlkey");
       ("output", "json"); ("fl", "original,timestamp,statuscode")] in
  let url := base_url ++ "?" in
  url ++ Str.join "&" (map (fun kv => fst kv ++ "=" ++ snd kv) params).

(** ** Fetcher *)

(** What the session hands back for one GET. *)
Record response : Type := {
  raise_for_status : result unit;
  content_type : option string;     (* headers.get('content-type') *)
  json : result value;              (* response.json() *)
  text : string                     (* response.text *)
}.

(** [data[0] == ['original', 'timestamp', 'statuscode']] *)
Definition is_header_row (v : value) : bool :=
  match v with
  | VList [VStr a; VStr b; VStr c] =>
      (String.eqb a "original" && String.eqb b "timestamp"
       && String.eqb c "statuscode")%bool
  | _ => false
  end.

(** Lines 218-221: the header row is dropped when it comes first. *)
Definition strip_header (data : value) : value :=
  match data with
  | VList (first :: rest) => if is_header_row first then VList rest else data
  | _ => data
  end.

(** Lines 224-225: the non-blank lines of the body, each one stripped. *)
Definition text_records (body : string) : value :=
  let lines := Str.split "010" (Str.strip body) in
  VList (map (fun line => VStr (Str.strip line))
             (filter (fun line => negb (String.eqb (Str.strip line) "")) lines)).

(** Lines 216-231: the body parsed by content type. *)
Definition parse_response (r : response) : result value :=
  let ctype := match content_type r with Some c => c | None => "" end in
  if Str.contains "application/json" ctype then
    data <- json r ;;
    Ok (strip_header data)
  else Ok (text_records (text r)).

Section Fetcher.

(** [self.session.get(url, timeout=30)], retries included. *)
Variable session_get : string -> result response.

(** [WaybackCDXQuery.fetch_cdx_data]; the [except] clause re-raises. *)
Definition fetch_cdx_data (url : string) : result value :=
  r <- session_get url ;;
  _ <- raise_for_status r ;;
  parse_response r.

End Fetcher.

(** ** Filters *)

(** Line 263: [ext.lower().lstrip('.')] *)
Definition normalize_ext (ext : string) : string :=
  Str.lstrip_where (Ascii.eqb ".") (Str.lower ext).

(** Lines 271-274: the URL of a record. *)
Definition record_url (text_mode : bool) (record : value) : result value :=
  if text_mode then Ok record
  else match record with
       | VList [] => Raise IndexError
       | VList (first :: _) => Ok first
       | _ => Ok record
       end.

(** Line 278: [any(url_lower.endswith(f'.{ext}') for ext in extensions)] *)
Definition any_endswith (url_lower : string) (extensions : list string) : bool :=
  existsb (fun ext => Str.endswith url_lower ("." ++ ext)) extensions.

(** Lines 270-279: the loop, [filtered_data] the list built so far. *)
Fixpoint ext_loop (extensions : list string) (text_mode : bool)
    (data filtered_data : list value) : result (list value) :=
  match data with
  | [] => Ok filtered_data
  | record :: data' =>
      url <- record_url text_mode record ;;
      url_lower <- Py.lower url ;;
      if any_endswith url_lower extensions
      then ext_loop extensions text_mode data' (filtered_data ++ [record])
      else ext_loop extensions text_mode data' filtered_data
  end.

(** [WaybackCDXQuery.filter_by_extensions] *)
Definition filter_by_extensions (data : value) (extensions : list string)
    (text_mode : bool) : result value :=
  match extensions with
  | [] => Ok data
  | _ :: _ =>
      let extensions := map normalize_ext extensions in
      records <- Py.iter data ;;
      filtered_data <- ext_loop extensions text_mode records [] ;;
      Ok (VList filtered_data)
  end.

(** Lines 320-329: the loop of the status-code filter. *)
Fixpoint status_loop (status_codes : list Z)
    (data filtered_data : list value) : result (list value) :=
  match data with
  | [] => Ok filtered_data
  | record :: data' =>
      match record with
      | VList (_ :: _ :: third :: _) =>
          status_code <- Py.int third ;;
          if Py.mem_int status_code status_codes
          then status_loop status_codes data' (filtered_data ++ [record])
          else status_loop status_codes data' filtered_data
      | VStr _ => status_loop status_codes data' (filtered_data ++ [record])
      | _ => status_loop status_codes data' filtered_data
      end
  end.

(** [WaybackCDXQuery.filter_by_status_codes] *)
Definition filter_by_status_codes (data : value) (status_codes : list Z)
    : result value :=
  match status_codes with
  | [] => Ok data
  | _ :: _ =>
      records <- Py.iter data ;;
      filtered_data <- status_loop status_codes records [] ;;
      Ok (VList filtered_data)
  end.

(** ** Formatters *)

Section Formatters.

(** The built-in [str(field)]; it is the identity on a [str], and its
    rendering of the other values belongs to the interpreter. *)
Variable py_str : value -> string.

(** [widths[i] = v] *)
Fixpoint set_nth (i : nat) (v : nat) (widths : list nat) : list nat :=
  match widths, i with
  | [], _ => []
  | _ :: ws, O => v :: ws
  | w :: ws, S i' => w :: set_nth i' v ws
  end.

(** Lines 360-362: the fields of one record, [i] the index reached. *)
Fixpoint widen (i : nat) (fields : list value) (widths : list nat)
    : list nat :=
  match fields with
  | [] => widths
  | field :: fields' =>
      widen (S i) fields'
        (if (i <? List.length widths)%nat
         then set_nth i (Nat.max (nth i widths O)
                                 (String.length (py_str field))) widths
         else widths)
  end.

(** Lines 359-362 *)
Fixpoint column_widths (data : list value) (widths : list nat)
    : result (list nat) :=
  match data with
  | [] => Ok widths
  | record :: data' =>
      fields <- Py.iter record ;;
      column_widths data' (widen O fields widths)
  end.

(** Lines 373-375 *)
Fixpoint row_lines (data : list value) (widths : list nat)
    : result (list string) :=
  match data with
  | [] => Ok []
  | record :: data' =>
      fields <- Py.iter record ;;
      let row_line :=
        Str.join " | "
          (map (fun fw => Str.ljust (py_str (fst fw)) (snd fw))
               (combine fields widths)) in
      rest <- row_lines data' widths ;;
      Ok (row_line :: rest)
  end.

(** [WaybackCDXQuery.format_json_table] *)
Definition format_json_table (data : value) : result string :=
  if negb (Py.truthy data) then Ok "No results."
  else
    let headers := ["original"; "timestamp"; "statuscode"] in
    records <- Py.iter data ;;
    widths <- column_widths records (map String.length headers) ;;
    let header_line :=
      Str.join " | "
        (map (fun hw => Str.ljust (fst hw) (snd hw))
             (combine headers widths)) in
    rows <- row_lines records widths ;;
    Ok (Str.join (String "010" EmptyString)
          (header_line :: Str.repeat "-" (String.length header_line) :: rows)).

(** The items of ["\n".join(data)] must all be [str]. *)
Fixpoint all_str (items : list value) : result (list string) :=
  match items with
  | [] => Ok []
  | VStr s :: items' => rest <- all_str items' ;; Ok (s :: rest)
  | _ :: _ => Raise TypeError
  end.

(** [WaybackCDXQuery.format_text_list] *)
Definition format_text_list (data : value) : result string :=
  if negb (Py.truthy data) then Ok "No results."
  else
    items <- Py.iter data ;;
    parts <- all_str items ;;
    Ok (Str.join (String "010" EmptyString) parts).

End Formatters.

(** ** Output sink and [main] *)

(** The pipeline stages of the [try] block of [main]; the user's interrupt
    can land in any of them. *)
Inductive stage : Type :=
| Normalizing | Fetching | FilteringExtensions | FilteringStatus
| Formatting | Saving.

(** What the run depends on outside the program. *)
Record world : Type := {
  session_get : string -> result response;
  write_file : string -> string -> result unit;   (* filename, content *)
  interrupted : stage -> bool
}.

(** The parsed command line ([-v] only changes what is printed). *)
Record args : Type := {
  url : option string;
  output : option string;
  text_flag : bool;
  ext : option (list string);
  status : option (list Z)
}.

(** The classes named by the [except] clauses of [main]. *)
Inductive exn_class : Type :=
| CRequestException | CJSONDecodeError | CKeyboardInterrupt | CException.

(** [isinstance(e, cls)]: [KeyboardInterrupt] and [SystemExit] derive from
    [BaseException] only. *)
Definition isinstance (e : exn) (cls : exn_class) : bool :=
  match cls, e with
  | CRequestException, RequestException => true
  | CJSONDecodeError, JSONDecodeError => true
  | CKeyboardInterrupt, KeyboardInterrupt => true
  | CException, (KeyboardInterrupt | SystemExit _) => false
  | CException, _ => true
  | _, _ => false
  end.

(** Lines 584-598: each clause with the status it passes to [sys.exit]. *)
Definition except_clauses : list (exn_class * Z) :=
  [(CRequestException, 1); (CJSONDecodeError, 1);
   (CKeyboardInterrupt, 0); (CException, 1)].

Fixpoint first_match (e : exn) (clauses : list (exn_class * Z)) : option Z :=
  match clauses with
  | [] => None
  | (cls, code) :: clauses' =>
      if isinstance e cls then Some code else first_match e clauses'
  end.

(** The exit status of the process when [e] leaves the [try] statement. *)
Definition exit_status_of (e : exn) : Z :=
  match first_match e except_clauses with
  | Some code => code
  | None => match e with
            | SystemExit code => code
            | _ => 1
            end
  end.

Section Main.

Variable bracketed_netloc_ok : string -> bool.
Variable py_str : value -> string.
Variable w : world.

Definition checkpoint (st : stage) : result unit :=
  if interrupted w st then Raise KeyboardInterrupt else Ok tt.

(** [WaybackCDXQuery.save_to_file]: an [IOError] becomes [sys.exit(1)]. *)
Definition save_to_file (content filename : string) : result unit :=
  match write_file w filename content with
  | Raise OSError => Raise (SystemExit 1)
  | r => r
  end.

(** Lines 507-562: from the domain to the formatted output. *)
Definition produce_output (a : args) (domain : string) : result string :=
  _ <- checkpoint Normalizing ;;
  normalized_domain <- normalize_domain bracketed_netloc_ok domain ;;
  let cdx_url := build_cdx_url normalized_domain (text_flag a) in
  _ <- checkpoint Fetching ;;
  data <- fetch_cdx_data (session_get w) cdx_url ;;
  _ <- Py.len data ;;                       (* the record count reported *)
  data <- match ext a with
          | Some (e :: es) =>
              _ <- checkpoint FilteringExtensions ;;
              filter_by_extensions data (e :: es) (text_flag a)
          | _ => Ok data
          end ;;
  data <- match status a with
          | Some (c :: cs) =>
              if text_flag a then Ok data
              else _ <- checkpoint FilteringStatus ;;
                   filter_by_status_codes data (c :: cs)
          | _ => Ok data
          end ;;
  _ <- checkpoint Formatting ;;
  if text_flag a then format_text_list data
  else format_json_table py_str data.

(** Lines 565-582: the output saved or printed. *)
Definition deliver (a : args) (content : string) : result unit :=
  match output a with
  | Some (String c f) =>
      _ <- checkpoint Saving ;;
      save_to_file content (String c f)
  | _ => Ok tt
  end.

(** Lines 506-582: the body of the [try] statement. *)
Definition try_body (a : args) (domain : string) : result unit :=
  content <- produce_output a domain ;;
  deliver a content.

(** [main]: the exit status of the process, [argc] being
    [len(sys.argv)]. *)
Definition main (argc : nat) (a : args) : Z :=
  if (argc =? 1)%nat then 0
  else match url a with
       | None | Some EmptyString => 1
       | Some domain =>
           match try_body a domain with
           | Ok _ => 0
           | Raise e => exit_status_of e
           end
       end.

End Main.

(** ** Notions the statements use *)

(** A host check that accepts every bracketed host. *)
Definition accept_all (netloc : string) : bool := true.

(** The three prefixes the normalizer looks for. *)
Definition has_known_prefix (s : string) : bool :=
  (Str.startswith s "http://" || Str.startswith s "https://"
   || Str.startswith s "www.")%bool.


(** The URL of a record as the specification reads it: the first element
    of a structured record, the string itself for a text record. *)
Definition url_of_record (record : value) : option string :=
  match record with
  | VList (VStr u :: _) => Some u
  | VStr u => Some u
  | _ => None
  end.


(** The shapes a record has in each output mode: text records only in text
    mode; otherwise a text record or a list that starts with its URL. *)
Definition well_shaped (text_mode : bool) (record : value) : Prop :=
  match record with
  | VStr _ => True
  | VList (VStr _ :: _) => text_mode = false
  | _ => False
  end.

(** The third element of a structured record, a list of three elements or
    more. *)
Definition third_field (record : value) : option value :=
  match record with
  | VList (_ :: _ :: third :: _) => Some third
  | _ => None
  end.

(** Every structured record carries a status that [int] accepts. *)
Definition status_readable (record : value) : Prop :=
  match third_field record with
  | Some third => exists n, Py.int third = Ok n
  | None => True
  end.

(** The records the status-code filter is specified to keep. *)
Definition status_keeps (status_codes : list Z) (record : value) : bool :=
  match third_field record with
  | Some third =>
      match Py.int third with
      | Ok n => Py.mem_int n status_codes
      | Raise _ => false
      end
  | None => match record with VStr _ => true | _ => false end
  end.

(** The records the extension filter is specified to keep. *)
Definition ext_keeps (extensions : list string) (record : value) : bool :=
  match url_of_record record with
  | Some u => any_endswith (Str.lower u) (map normalize_ext extensions)
  | None => false
  end.

(** The literal header row of a JSON response. *)
Definition header_row : value :=
  VList [VStr "original"; VStr "timestamp"; VStr "statuscode"].

(** ** Sample runs *)

(** A session that answers every GET with a JSON body holding the header
    row twice and one capture. *)
Definition twice_headed_session (url : string) : result response :=
  Ok {| raise_for_status := Ok tt;
        content_type := Some "application/json; charset=utf-8";
        json := Ok (VList [header_row; header_row;
                           VList [VStr "http://test.com/a.html";
                                  VStr "20200101000000"; VStr "200"]]);
        text := "" |}.

(** A stand-in for [str] that renders a [str] as itself. *)
Definition str_of_text (v : value) : string :=
  match v with
  | VStr s => s
  | _ => ""
  end.

Definition never_interrupted (st : stage) : bool := false.

Definition writable (filename content : string) : result unit := Ok tt.



(** The archive answers with a body that is not JSON. *)
Definition world_bad_json : world :=
  {| session_get := fun _ =>
       Ok {| raise_for_status := Ok tt;
             content_type := Some "application/json";
             json := Raise JSONDecodeError;
             text := "<html>" |};
     write_file := writable;
     interrupted := never_interrupted |}.

(** The output file cannot be written. *)
Definition world_read_only : world :=
  {| session_get := twice_headed_session;
     write_file := fun _ _ => Raise OSError;
     interrupted := never_interrupted |}.

Definition args_for (domain : string) (out : option string) : args :=
  {| url := Some domain; output := out; text_flag := false;
     ext := None; status := None |}.


(** ** Further notions *)



(** What may follow the host in a URL: nothing, or a part that starts with
    one of the delimiters. *)
Definition url_tail (rest : string) : Prop :=
  match rest with
  | EmptyString => True
  | String c _ => UrlParse.is_netloc_end c = true
  end.

(** The last character of a string. *)
Fixpoint last_char (s : string) : option ascii :=
  match s with
  | EmptyString => None
  | String c EmptyString => Some c
  | String _ s' => last_char s'
  end.

(** A line as the text branch of the fetcher keeps it: not empty, nothing
    to strip at either end, and no line feed inside. *)
Definition text_line (s : string) : Prop :=
  s <> "" /\ Str.strip s = s /\ Str.mem "010" s = false.

(** The exception a record of the wrong shape makes the extension filter
    raise: [record[0]] on an empty list in JSON mode, and otherwise
    [.lower()] on a URL that is not a [str]. *)
Definition shape_error (text_mode : bool) (record : value) : exn :=
  match text_mode, record with
  | false, VList [] => IndexError
  | _, _ => AttributeError
  end.

(** A structured record as the data model has it: a list of three
    fields. *)
Definition is_triple (record : value) : Prop :=
  exists a b c, record = VList [a; b; c].

(** The three fields of [record], rendered by [py_str], fit the widths
    [a], [b] and [c]. *)
Definition fields_fit (py_str : value -> string) (a b c : nat)
    (record : value) : Prop :=
  match record with
  | VList [x; y; z] =>
      (String.length (py_str x) <= a)%nat
      /\ (String.length (py_str y) <= b)%nat
      /\ (String.length (py_str z) <= c)%nat
  | _ => False
  end.




(** A world that answers every GET with the plain-text body [body]. *)
Definition text_world (body : string) : world :=
  {| session_get := fun _ =>
       Ok {| raise_for_status := Ok tt;
             content_type := Some "text/plain";
             json := Raise JSONDecodeError;
             text := body |};
     write_file := writable;
     interrupted := never_interrupted |}.



(** The row the table formatter makes of a text record: it iterates over
    the string, so the first three characters fill the three columns. *)
Definition char_row (s : string) : string :=
  Str.join " | "
    (map (fun cw => Str.ljust (String (fst cw) "") (snd cw))
         (combine (list_ascii_of_string s) [8%nat; 9%nat; 10%nat])).

(** A host part without delimiter and without TAB, LF or CR; brackets are
    allowed. *)
Definition is_netloc_char (c : ascii) : bool :=
  negb (UrlParse.is_netloc_end c || UrlParse.is_unsafe c).

(** ** Strings: lemmas *)

Module StrFacts.

Lemma append_assoc (a b c : string) : (a ++ b) ++ c = a ++ (b ++ c).
Proof. induction a as [|x a IH]; simpl; [reflexivity | now rewrite IH]. Qed.

Lemma append_nil_r (a : string) : a ++ "" = a.
Proof. induction a as [|x a IH]; simpl; [reflexivity | now rewrite IH]. Qed.


Lemma lower_char_idem (c : ascii) :
  Str.lower_char (Str.lower_char c) = Str.lower_char c.
Proof. destruct c as [[] [] [] [] [] [] [] []]; reflexivity. Qed.

Lemma isspace_lower_char (c : ascii) :
  Str.isspace (Str.lower_char c) = Str.isspace c.
Proof. destruct c as [[] [] [] [] [] [] [] []]; reflexivity. Qed.

Lemma lower_idem (s : string) : Str.lower (Str.lower s) = Str.lower s.
Proof.
  induction s as [|c s IH]; simpl; [reflexivity|].
  now rewrite lower_char_idem, IH.
Qed.


Lemma lower_lstrip (s : string) :
  Str.lower (Str.lstrip_where Str.isspace s)
  = Str.lstrip_where Str.isspace (Str.lower s).
Proof.
  induction s as [|c s IH]; simpl; [reflexivity|].
  rewrite isspace_lower_char. destruct (Str.isspace c); [apply IH | reflexivity].
Qed.

Lemma lower_rstrip (s : string) :
  Str.lower (Str.rstrip_where Str.isspace s)
  = Str.rstrip_where Str.isspace (Str.lower s).
Proof.
  induction s as [|c s IH]; simpl; [reflexivity|].
  rewrite <- IH, isspace_lower_char.
  destruct (Str.rstrip_where Str.isspace s); simpl;
    [destruct (Str.isspace c) |]; reflexivity.
Qed.

Lemma lower_strip (s : string) : Str.lower (Str.strip s) = Str.strip (Str.lower s).
Proof. unfold Str.strip. now rewrite lower_rstrip, lower_lstrip. Qed.

Lemma lstrip_clean p s : Str.clean_start p (Str.lstrip_where p s) = true.
Proof.
  induction s as [|c s IH]; simpl; [reflexivity|].
  destruct (p c) eqn:E; [assumption | simpl; now rewrite E].
Qed.

Lemma lstrip_of_clean p s :
  Str.clean_start p s = true -> Str.lstrip_where p s = s.
Proof.
  destruct s as [|c s]; simpl; [reflexivity|].
  now destruct (p c).
Qed.

Lemma rstrip_clean p s :
  Str.clean_start p s = true -> Str.clean_start p (Str.rstrip_where p s) = true.
Proof.
  destruct s as [|c s]; simpl; [reflexivity|]. intros H.
  destruct (Str.rstrip_where p s); simpl; [|assumption].
  destruct (p c) eqn:E; [discriminate | simpl; now rewrite E].
Qed.

Lemma rstrip_idem p s :
  Str.rstrip_where p (Str.rstrip_where p s) = Str.rstrip_where p s.
Proof.
  induction s as [|c s IH]; simpl; [reflexivity|].
  destruct (Str.rstrip_where p s) as [|d r] eqn:E.
  - destruct (p c) eqn:Ec; simpl; [reflexivity | now rewrite Ec].
  - cbn [Str.rstrip_where]. cbn [Str.rstrip_where] in IH.
    now rewrite IH.
Qed.

Lemma strip_idem (s : string) : Str.strip (Str.strip s) = Str.strip s.
Proof.
  unfold Str.strip.
  rewrite (lstrip_of_clean Str.isspace
             (Str.rstrip_where Str.isspace (Str.lstrip_where Str.isspace s))).
  - apply rstrip_idem.
  - apply rstrip_clean, lstrip_clean.
Qed.

Lemma lstrip_length p s :
  (String.length (Str.lstrip_where p s) <= String.length s)%nat.
Proof.
  induction s as [|c s IH]; simpl; [lia|]. destruct (p c); simpl; lia.
Qed.

Lemma rstrip_length p s :
  (String.length (Str.rstrip_where p s) <= String.length s)%nat.
Proof.
  induction s as [|c s IH]; simpl; [lia|].
  destruct (Str.rstrip_where p s); simpl in *; [destruct (p c); simpl|]; lia.
Qed.





Lemma startswith_iff (s p : string) :
  Str.startswith s p = true <-> exists t, s = p ++ t.
Proof.
  unfold Str.startswith. revert s.
  induction p as [|c p IH]; intros s; simpl.
  - destruct s; split; eauto.
  - destruct s as [|d s]; simpl.
    + split; [discriminate | intros [t Ht]; discriminate].
    + destruct (ascii_dec c d) as [->|N].
      * rewrite IH. split; intros [t Ht]; exists t;
          [now rewrite Ht | now injection Ht].
      * split; [discriminate|]. intros [t Ht]. injection Ht as E _.
        now elim N.
Qed.

End StrFacts.

(** ** The domain normalizer *)

(** What the normalizer returns is lower-cased and stripped. *)
Lemma normalize_domain_shape ok s r :
  normalize_domain ok s = Ok r -> exists d, r = Str.strip (Str.lower d).
Proof.
  unfold normalize_domain.
  destruct (_ || _)%bool; [destruct (UrlParse.netloc ok s) as [d|e]|];
    simpl; intros H; try discriminate; injection H as <-; eauto.
Qed.

Lemma normal_form_fixed d :
  Str.strip (Str.lower (Str.strip (Str.lower d))) = Str.strip (Str.lower d).
Proof.
  now rewrite StrFacts.lower_strip, StrFacts.lower_idem, StrFacts.strip_idem.
Qed.

(** C1 (as the code behaves): on ["https://WWW.Example.com/"] the normalizer
    removes the scheme and the path, finds no lower-case ["www."] prefix in
    ["WWW.Example.com"], and only then lower-cases: the result is
    ["www.example.com"], with the prefix still there, not ["example.com"]. *)
Theorem normalize_domain_upper_www :
  forall ok, normalize_domain ok "https://WWW.Example.com/" = Ok "www.example.com".
Proof. intros ok. reflexivity. Qed.

(** C2 (counterexample): normalizing ["www.www.example.com"] gives
    ["www.example.com"], and normalizing that gives ["example.com"]: one
    prefix is removed per call, so the second call changes the result. *)
Lemma normalize_domain_twice_differs :
  exists s r r',
    s = "www.www.example.com"
    /\ normalize_domain accept_all s = Ok r
    /\ normalize_domain accept_all r = Ok r'
    /\ r' <> r.
Proof.
  exists "www.www.example.com", "www.example.com", "example.com".
  repeat split; discriminate.
Qed.

(** C2 (amended): when the normalizer returns [r] and [r] starts with none
    of ["http://"], ["https://"] and ["www."], normalizing [r] again
    returns [r]. *)
Theorem normalize_domain_idempotent ok s r :
  normalize_domain ok s = Ok r ->
  has_known_prefix r = false ->
  normalize_domain ok r = Ok r.
Proof.
  intros Hs Hp. destruct (normalize_domain_shape _ _ _ Hs) as [d ->].
  unfold has_known_prefix in Hp.
  apply orb_false_iff in Hp as [Hp Hw]. unfold normalize_domain.
  rewrite Hp. cbn [bind]. rewrite Hw. now rewrite normal_form_fixed.
Qed.

Lemma normalize_domain_idempotent_witness :
  normalize_domain accept_all "https://Example.COM/index.html" = Ok "example.com"
  /\ normalize_domain accept_all "example.com" = Ok "example.com".
Proof.
  split; [reflexivity|].
  apply (normalize_domain_idempotent accept_all "https://Example.COM/index.html");
    reflexivity.
Defined.



(** ** The extension filter *)



(** On well-shaped records the loop never raises, and appends to
    [filtered_data] the records that [ext_keeps] selects, in order. *)
Lemma ext_loop_filter exts text_mode data :
  Forall (well_shaped text_mode) data ->
  forall filtered_data,
    ext_loop (map normalize_ext exts) text_mode data filtered_data
    = Ok (filtered_data ++ filter (ext_keeps exts) data)%list.
Proof.
  induction 1 as [|record data Hr _ IH]; intros acc; cbn [ext_loop filter].
  - now rewrite app_nil_r.
  - assert (E : exists u, url_of_record record = Some u
                          /\ record_url text_mode record = Ok (VStr u)).
    { destruct record as [| | | |u|[|[] items]|]; try contradiction;
        destruct text_mode; simpl in *; try discriminate; eauto. }
    destruct E as [u [Eu Er]]. rewrite Er. cbn [bind Py.lower].
    replace (ext_keeps exts record)
      with (any_endswith (Str.lower u) (map normalize_ext exts))
      by (unfold ext_keeps; now rewrite Eu).
    destruct (any_endswith (Str.lower u) (map normalize_ext exts)).
    + rewrite IH, <- app_assoc. reflexivity.
    + apply IH.
Qed.

(** A record of another shape makes the loop raise: it has no first element
    ([IndexError]) or its URL is no [str] ([AttributeError]). *)
Lemma ext_loop_raises exts text_mode data :
  Exists (fun r => ~ well_shaped text_mode r) data ->
  forall filtered_data,
    exists e, ext_loop exts text_mode data filtered_data = Raise e.
Proof.
  induction data as [|record data IH]; intros Hex acc; [inversion Hex|].
  cbn [ext_loop].
  destruct (record_url text_mode record) as [u|e] eqn:Eu; cbn [bind];
    [|eauto].
  destruct (Py.lower u) as [l|e] eqn:El; cbn [bind]; [|eauto].
  assert (Hw : well_shaped text_mode record).
  { destruct text_mode, record as [| | | |s|[|[] items]|];
      simpl in *; try discriminate;
      try (injection Eu as <-; simpl in *; discriminate); auto. }
  assert (Hd : Exists (fun r => ~ well_shaped text_mode r) data).
  { inversion Hex; subst; [contradiction | assumption]. }
  destruct (any_endswith l exts); apply (IH Hd).
Qed.



(** The example of the specification: only the [.JS] record is kept, and
    [js], [.js] and [.JS] select alike. *)
Example filter_by_extensions_example :
  let data := VList [VList [VStr "http://a.com/x.JS"; VStr "1"; VStr "200"];
                     VList [VStr "http://a.com/y.png"; VStr "2"; VStr "200"]] in
  let kept := VList [VList [VStr "http://a.com/x.JS"; VStr "1"; VStr "200"]] in
  filter_by_extensions data ["js"] false = Ok kept
  /\ filter_by_extensions data [".js"] false = Ok kept
  /\ filter_by_extensions data ["..JS"] false = Ok kept.
Proof. repeat split. Qed.

(** ** The status-code filter *)


(** While every status is readable the loop never raises, and appends to
    [filtered_data] the records that [status_keeps] selects, in order. *)
Lemma status_loop_filter codes data :
  Forall status_readable data ->
  forall filtered_data,
    status_loop codes data filtered_data
    = Ok (filtered_data ++ filter (status_keeps codes) data)%list.
Proof.
  induction 1 as [|record data Hr _ IH]; intros acc; cbn [status_loop filter].
  - now rewrite app_nil_r.
  - unfold status_readable in Hr. unfold status_keeps at 1.
    destruct record as [| | | |s|[|a [|b [|third rest]]]|];
      cbn [third_field] in *;
      try (rewrite IH; reflexivity).
    + rewrite IH, <- app_assoc. reflexivity.
    + destruct Hr as [n Hn]. rewrite Hn. cbn [bind].
      destruct (Py.mem_int n codes).
      * rewrite IH, <- app_assoc. reflexivity.
      * apply IH.
Qed.

(** A structured record whose status [int] rejects makes the loop raise,
    whatever the records after it. *)
Lemma status_loop_raises codes data :
  Exists (fun r => ~ status_readable r) data ->
  forall filtered_data, exists e, status_loop codes data filtered_data = Raise e.
Proof.
  induction data as [|record data IH]; intros Hex acc.
  - inversion Hex.
  - destruct (Py.int match third_field record with
                     | Some t => t | None => VInt 0 end) as [n|e] eqn:En.
    + assert (Hr : status_readable record).
      { unfold status_readable. destruct (third_field record); eauto. }
      assert (Hd : Exists (fun r => ~ status_readable r) data).
      { inversion Hex; subst; [contradiction | assumption]. }
      destruct record as [| | | |s|[|a [|b [|third rest]]]|];
        cbn [status_loop third_field] in *; try apply (IH Hd).
      rewrite En. cbn [bind]. destruct (Py.mem_int n codes); apply (IH Hd).
    + destruct record as [| | | |s|[|a [|b [|third rest]]]|];
        cbn [third_field] in En; try discriminate.
      exists e. cbn [status_loop]. now rewrite En.
Qed.



(** C10: the status-code filter is partial on structured records: a
    collection that holds a record whose third element is ["-"], filtered
    with a non-empty set of codes, raises [ValueError]; no record is kept or
    dropped. *)
Theorem filter_by_status_codes_raises :
  exists records status_codes record,
    status_codes <> []
    /\ In record records
    /\ third_field record = Some (VStr "-")
    /\ filter_by_status_codes (VList records) status_codes = Raise ValueError.
Proof.
  exists [VList [VStr "http://a.com/"; VStr "20200101000000"; VStr "200"];
          VList [VStr "http://a.com/r"; VStr "20200101000000"; VStr "-"]],
         [200],
         (VList [VStr "http://a.com/r"; VStr "20200101000000"; VStr "-"]).
  repeat split; [discriminate | simpl; tauto].
Qed.

(** ** Empty criteria *)

(** C7: with an empty extension list the extension filter returns its input
    unchanged, and so does the status-code filter with an empty list of
    status codes, whatever the input. *)
Theorem empty_criteria_identity data text_mode :
  filter_by_extensions data [] text_mode = Ok data
  /\ filter_by_status_codes data [] = Ok data.
Proof. split; reflexivity. Qed.

(** ** The query URL *)

(** C6: for every domain [d] the builder returns exactly the CDX URL with
    [url=*.d/*], [collapse=urlkey] and, in text mode, [output=text] and
    [fl=original], in JSON mode [output=json] and
    [fl=original,timestamp,statuscode].  The builder is a function of the
    domain and the mode alone: no session and no [world] enters it. *)
Theorem build_cdx_url_exact d :
  build_cdx_url d true
  = "https://web.archive.org/cdx/search/cdx?url=*." ++ d
    ++ "/*&collapse=urlkey&output=text&fl=original"
  /\ build_cdx_url d false
     = "https://web.archive.org/cdx/search/cdx?url=*." ++ d
       ++ "/*&collapse=urlkey&output=json&fl=original,timestamp,statuscode".
Proof.
  unfold build_cdx_url, Str.join.
  split; cbn; rewrite StrFacts.append_assoc; reflexivity.
Qed.

(** ** The header row *)

Lemma is_header_row_iff v : is_header_row v = true <-> v = header_row.
Proof.
  unfold header_row. split.
  - destruct v as [| | | | |[|[| | | |a| |] [|[| | | |b| |] [|[| | | |c| |] [|]]]]|];
      simpl; try discriminate.
    intros H. apply andb_true_iff in H as [H Hc].
    apply andb_true_iff in H as [Ha Hb].
    apply String.eqb_eq in Ha, Hb, Hc. now subst.
  - intros ->. reflexivity.
Qed.

Lemma strip_header_first rest :
  strip_header (VList (header_row :: rest)) = VList rest.
Proof. reflexivity. Qed.

Lemma strip_header_other first rest :
  first <> header_row ->
  strip_header (VList (first :: rest)) = VList (first :: rest).
Proof.
  intros Hne. unfold strip_header.
  destruct (is_header_row first) eqn:E; [|reflexivity].
  apply is_header_row_iff in E. contradiction.
Qed.

(** C5: when the response is JSON and decodes to the non-empty list
    [items], the fetcher drops the header row when it is the first element
    and drops that one row only: of two header rows in succession the second
    stays; and when the first element is not the header row nothing is
    dropped, wherever else the header row occurs. *)
Theorem fetch_cdx_data_strips_one_header session_get url r ctype items :
  session_get url = Ok r ->
  raise_for_status r = Ok tt ->
  content_type r = Some ctype ->
  Str.contains "application/json" ctype = true ->
  json r = Ok (VList items) ->
  (forall rest, items = header_row :: rest ->
                fetch_cdx_data session_get url = Ok (VList rest))
  /\ (forall rest, items = header_row :: header_row :: rest ->
                   fetch_cdx_data session_get url = Ok (VList (header_row :: rest)))
  /\ (forall first rest, items = first :: rest -> first <> header_row ->
                         fetch_cdx_data session_get url = Ok (VList items)).
Proof.
  intros Hget Hst Hct Hin Hjs.
  assert (Hf : fetch_cdx_data session_get url = Ok (strip_header (VList items))).
  { unfold fetch_cdx_data, parse_response.
    rewrite Hget. cbn [bind]. rewrite Hst. cbn [bind].
    rewrite Hct, Hin, Hjs. reflexivity. }
  rewrite Hf. repeat split.
  - intros rest ->. reflexivity.
  - intros rest ->. reflexivity.
  - intros first rest -> Hne. now rewrite strip_header_other.
Qed.

Lemma fetch_cdx_data_strips_one_header_witness :
  fetch_cdx_data twice_headed_session (build_cdx_url "test.com" false)
  = Ok (VList [header_row;
               VList [VStr "http://test.com/a.html";
                      VStr "20200101000000"; VStr "200"]]).
Proof.
  refine (proj1 (proj2
            (fetch_cdx_data_strips_one_header twice_headed_session
               (build_cdx_url "test.com" false) _ _ _
               eq_refl eq_refl eq_refl eq_refl eq_refl)) _ eq_refl).
Defined.

(** ** The formatters *)

(** C9: the table formatter and the list formatter both turn the empty
    record collection into the string ["No results."]. *)
Theorem formatters_empty py_str :
  format_json_table py_str (VList []) = Ok "No results."
  /\ format_text_list (VList []) = Ok "No results.".
Proof. split; reflexivity. Qed.

(** ** The exit status *)



(** * Further properties of the code *)

(** ** The domain normalizer, continued *)

(** What the normalizer returns is in normal form for the two last steps:
    lower-casing it or stripping it again changes nothing. *)
Theorem normalize_domain_canonical ok s r :
  normalize_domain ok s = Ok r ->
  Str.lower r = r /\ Str.strip r = r.
Proof.
  intros H. destruct (normalize_domain_shape _ _ _ H) as [d ->]. split.
  - now rewrite StrFacts.lower_strip, StrFacts.lower_idem.
  - apply StrFacts.strip_idem.
Qed.

Lemma normalize_domain_canonical_witness :
  Str.lower "example.com:8080" = "example.com:8080"
  /\ Str.strip "example.com:8080" = "example.com:8080".
Proof.
  apply (normalize_domain_canonical accept_all
           "http://www.Example.COM:8080/a?b" "example.com:8080").
  reflexivity.
Defined.



Lemma netloc_raises ok u e : UrlParse.netloc ok u = Raise e -> e = ValueError.
Proof.
  unfold UrlParse.netloc. intros Hn.
  repeat match type of Hn with
         | (if ?b then _ else _) = _ => destruct b
         end; try discriminate; now injection Hn.
Qed.

(** The normalizer raises nothing but [ValueError], and raises it only on an
    input that starts with ["http://"] or ["https://"]: any other string
    goes through. *)
Theorem normalize_domain_raises_only_on_urls ok s e :
  normalize_domain ok s = Raise e ->
  e = ValueError
  /\ (Str.startswith s "http://" || Str.startswith s "https://")%bool = true.
Proof.
  unfold normalize_domain.
  destruct (Str.startswith s "http://" || Str.startswith s "https://")%bool.
  - destruct (UrlParse.netloc ok s) as [nl|e'] eqn:Hn; unfold bind;
      [discriminate|].
    intros H. injection H as ->. split; [|reflexivity].
    now apply netloc_raises in Hn.
  - unfold bind. discriminate.
Qed.

Lemma normalize_domain_raises_only_on_urls_witness :
  ValueError = ValueError
  /\ (Str.startswith "https://[::1/x" "http://"
      || Str.startswith "https://[::1/x" "https://")%bool = true.
Proof.
  apply (normalize_domain_raises_only_on_urls accept_all "https://[::1/x").
  reflexivity.
Defined.

Lemma remove_where_plain p h rest :
  Str.forallb (fun c => negb (p c)) h = true ->
  Str.remove_where p (h ++ rest) = h ++ Str.remove_where p rest.
Proof.
  induction h as [|c h IH]; simpl; [reflexivity|].
  intros H. apply andb_true_iff in H as [Hc Hh].
  destruct (p c); [discriminate|]. now rewrite IH.
Qed.

Lemma take_until_plain p h rest :
  Str.forallb (fun c => negb (p c)) h = true ->
  match rest with
  | EmptyString => True
  | String c _ => p c = true
  end ->
  Str.take_until p (h ++ rest) = h.
Proof.
  intros Hh Hr. induction h as [|c h IH]; simpl.
  - destruct rest as [|c t]; simpl; [reflexivity | now rewrite Hr].
  - simpl in Hh. apply andb_true_iff in Hh as [Hc Hh].
    destruct (p c); [discriminate|]. now rewrite IH.
Qed.

Lemma forallb_weaken (p q : ascii -> bool) s :
  (forall c, p c = true -> q c = true) ->
  Str.forallb p s = true -> Str.forallb q s = true.
Proof.
  intros Hpq. induction s as [|c s IH]; simpl; [reflexivity|].
  intros H. apply andb_true_iff in H as [Hc Hs].
  now rewrite (Hpq _ Hc), IH.
Qed.


Lemma url_tail_after_removal rest :
  url_tail rest ->
  match Str.remove_where UrlParse.is_unsafe rest with
  | EmptyString => True
  | String c _ => UrlParse.is_netloc_end c = true
  end.
Proof.
  destruct rest as [|c t]; simpl; [trivial|]. intros Hc.
  assert (Hu : UrlParse.is_unsafe c = false).
  { unfold UrlParse.is_netloc_end in Hc.
    repeat (apply orb_true_iff in Hc as [Hc | Hc]);
      apply Ascii.eqb_eq in Hc; subst; reflexivity. }
  now rewrite Hu.
Qed.





(** ** The query URL, continued *)

Lemma string_length_app (a b : string) :
  String.length (a ++ b) = (String.length a + String.length b)%nat.
Proof. induction a as [|c a IH]; simpl; [reflexivity | now rewrite IH]. Qed.

Lemma append_inv_head (p a b : string) : p ++ a = p ++ b -> a = b.
Proof.
  induction p as [|c p IH]; simpl; [trivial|]. intros H. injection H as H.
  now apply IH.
Qed.

Lemma append_inv_tail (a b t : string) : a ++ t = b ++ t -> a = b.
Proof.
  revert b. induction a as [|c a IH]; intros [|d b] H; simpl in H.
  - reflexivity.
  - apply (f_equal String.length) in H. simpl in H.
    rewrite string_length_app in H. lia.
  - apply (f_equal String.length) in H. simpl in H.
    rewrite string_length_app in H. lia.
  - injection H as -> H. now rewrite (IH _ H).
Qed.

Lemma last_char_app (a b : string) :
  b <> "" -> last_char (a ++ b) = last_char b.
Proof.
  intros Hb. induction a as [|c a IH]; [reflexivity|].
  cbn [append last_char]. rewrite IH.
  destruct (a ++ b) eqn:E; [|reflexivity].
  destruct a; simpl in E; [contradiction | discriminate].
Qed.

Lemma build_cdx_url_shape d text_mode :
  build_cdx_url d text_mode
  = "https://web.archive.org/cdx/search/cdx?url=*."
    ++ d ++ (if text_mode
             then "/*&collapse=urlkey&output=text&fl=original"
             else "/*&collapse=urlkey&output=json&fl=original,timestamp,statuscode").
Proof.
  unfold build_cdx_url, Str.join.
  destruct text_mode; cbn; rewrite StrFacts.append_assoc; reflexivity.
Qed.

(** Two queries get the same URL only when they are the same query: the
    builder is injective in the domain and the output mode together. *)
Theorem build_cdx_url_injective d d' text_mode text_mode' :
  build_cdx_url d text_mode = build_cdx_url d' text_mode' ->
  d = d' /\ text_mode = text_mode'.
Proof.
  rewrite !build_cdx_url_shape. intros H. apply append_inv_head in H.
  destruct text_mode, text_mode'.
  - split; [|reflexivity]. now apply append_inv_tail in H.
  - apply (f_equal last_char) in H.
    rewrite !last_char_app in H by discriminate. discriminate H.
  - apply (f_equal last_char) in H.
    rewrite !last_char_app in H by discriminate. discriminate H.
  - split; [|reflexivity]. now apply append_inv_tail in H.
Qed.

Lemma build_cdx_url_injective_witness :
  "example.com" = "example.com" /\ true = true.
Proof.
  apply (build_cdx_url_injective "example.com" "example.com" true true).
  reflexivity.
Defined.

(** ** The text branch of the fetcher *)

Lemma split_no_sep sep s :
  Forall (fun l => Str.mem sep l = false) (Str.split sep s).
Proof.
  induction s as [|c s IH]; cbn [Str.split].
  - constructor; [reflexivity | constructor].
  - destruct (Ascii.eqb c sep) eqn:E.
    + constructor; [reflexivity | assumption].
    + destruct (Str.split sep s) as [|h t].
      * constructor; [|constructor]. simpl.
        now rewrite Ascii.eqb_sym, E.
      * inversion IH; subst. constructor; [|assumption].
        simpl. now rewrite Ascii.eqb_sym, E.
Qed.

Lemma mem_lstrip c p s :
  Str.mem c s = false -> Str.mem c (Str.lstrip_where p s) = false.
Proof.
  induction s as [|d s IH]; simpl; [trivial|]. intros H.
  apply orb_false_iff in H as [Hd Hs].
  destruct (p d); [now apply IH | simpl; now rewrite Hd, Hs].
Qed.

Lemma mem_rstrip c p s :
  Str.mem c s = false -> Str.mem c (Str.rstrip_where p s) = false.
Proof.
  induction s as [|d s IH]; simpl; [trivial|]. intros H.
  apply orb_false_iff in H as [Hd Hs]. specialize (IH Hs).
  destruct (Str.rstrip_where p s) as [|e r].
  - destruct (p d); simpl; [reflexivity | now rewrite Hd].
  - cbn [Str.mem] in *. now rewrite Hd, IH.
Qed.

Lemma mem_strip c s : Str.mem c s = false -> Str.mem c (Str.strip s) = false.
Proof. intros H. unfold Str.strip. now apply mem_rstrip, mem_lstrip. Qed.

(** Of lines without line feed, those that are not blank are kept, each one
    stripped. *)
Lemma kept_lines ls :
  Forall (fun l => Str.mem "010" l = false) ls ->
  exists lines,
    map (fun line => VStr (Str.strip line))
        (filter (fun line => negb (String.eqb (Str.strip line) "")) ls)
    = map VStr lines
    /\ Forall text_line lines.
Proof.
  induction 1 as [|l ls Hl _ [lines [E F]]].
  - exists []. split; [reflexivity | constructor].
  - cbn [filter]. destruct (String.eqb (Str.strip l) "") eqn:Eb; cbn [negb].
    + exists lines. now split.
    + exists (Str.strip l :: lines). split.
      * cbn [map]. now rewrite E.
      * constructor; [|assumption]. repeat split.
        -- now apply String.eqb_neq.
        -- apply StrFacts.strip_idem.
        -- now apply mem_strip.
Qed.

(** Every record of the text branch is a non-empty string with nothing left
    to strip and no line feed in it. *)
Theorem text_records_are_lines body :
  exists lines,
    text_records body = VList (map VStr lines) /\ Forall text_line lines.
Proof.
  unfold text_records.
  destruct (kept_lines _ (split_no_sep "010" (Str.strip body)))
    as [lines [E F]].
  exists lines. split; [now rewrite E | assumption].
Qed.

(** A body of white space only, or an empty one, holds no record, and the
    list formatter renders that as ["No results."]. *)
Theorem blank_body_no_results body :
  Str.strip body = "" ->
  text_records body = VList []
  /\ format_text_list (text_records body) = Ok "No results.".
Proof.
  intros H. unfold text_records. rewrite H. split; reflexivity.
Qed.

Lemma blank_body_no_results_witness :
  text_records (String "010" (String " " (String "009" (String "010" ""))))
  = VList []
  /\ format_text_list
       (text_records (String "010" (String " " (String "009" (String "010" "")))))
     = Ok "No results.".
Proof.
  apply (blank_body_no_results
           (String "010" (String " " (String "009" (String "010" ""))))).
  reflexivity.
Defined.

(** ** Text output read back *)

Lemma lstrip_same_length p s :
  String.length (Str.lstrip_where p s) = String.length s ->
  Str.lstrip_where p s = s.
Proof.
  destruct s as [|c s]; simpl; [reflexivity|].
  destruct (p c); [|reflexivity].
  pose proof (StrFacts.lstrip_length p s). lia.
Qed.

Lemma strip_fixed s :
  Str.strip s = s ->
  Str.lstrip_where Str.isspace s = s /\ Str.rstrip_where Str.isspace s = s.
Proof.
  unfold Str.strip. intros H.
  assert (L : Str.lstrip_where Str.isspace s = s).
  { apply lstrip_same_length.
    pose proof (StrFacts.lstrip_length Str.isspace s).
    pose proof (StrFacts.rstrip_length Str.isspace
                  (Str.lstrip_where Str.isspace s)) as R.
    rewrite H in R. lia. }
  split; [assumption|]. now rewrite L in H.
Qed.

Lemma rstrip_app p a b :
  Str.rstrip_where p b <> "" ->
  Str.rstrip_where p (a ++ b) = a ++ Str.rstrip_where p b.
Proof.
  intros Hb. induction a as [|c a IH]; [reflexivity|].
  cbn [append Str.rstrip_where]. rewrite IH.
  destruct (a ++ Str.rstrip_where p b) eqn:E; [|reflexivity].
  destruct a; simpl in E; [contradiction | discriminate].
Qed.

Lemma split_app sep x rest :
  Str.mem sep x = false ->
  Str.split sep (x ++ String sep rest) = x :: Str.split sep rest.
Proof.
  induction x as [|c x IH]; cbn [append Str.split Str.mem].
  - now rewrite Ascii.eqb_refl.
  - intros H. apply orb_false_iff in H as [Hc Hx].
    rewrite Ascii.eqb_sym, Hc, (IH Hx). reflexivity.
Qed.

Lemma split_without_sep sep x :
  Str.mem sep x = false -> Str.split sep x = [x].
Proof.
  induction x as [|c x IH]; cbn [Str.split Str.mem]; [reflexivity|].
  intros H. apply orb_false_iff in H as [Hc Hx].
  rewrite Ascii.eqb_sym, Hc, (IH Hx). reflexivity.
Qed.

Lemma split_join lines :
  lines <> [] ->
  Forall (fun l => Str.mem "010" l = false) lines ->
  Str.split "010" (Str.join (String "010" "") lines) = lines.
Proof.
  unfold Str.join.
  induction lines as [|x [|y r] IH]; intros Hne Hf; [contradiction| |].
  - inversion Hf; subst. now apply split_without_sep.
  - inversion Hf as [|? ? Hx Hr]; subst.
    change (String.concat (String "010" "") (x :: y :: r))
      with (x ++ String "010" (String.concat (String "010" "") (y :: r))).
    rewrite split_app by assumption. f_equal.
    apply IH; [discriminate | assumption].
Qed.

Lemma join_not_empty sep x lines :
  x <> "" -> String.concat sep (x :: lines) <> "".
Proof.
  intros Hx. destruct lines as [|y r]; cbn [String.concat]; [assumption|].
  destruct x; [contradiction | discriminate].
Qed.

Lemma rstrip_join lines :
  Forall text_line lines ->
  Str.rstrip_where Str.isspace (Str.join (String "010" "") lines)
  = Str.join (String "010" "") lines.
Proof.
  unfold Str.join.
  induction lines as [|x [|y r] IH]; intros Hf; [reflexivity| |].
  - inversion Hf as [|? ? [_ [Hx _]] _]; subst.
    now apply strip_fixed in Hx as [_ Hx].
  - inversion Hf as [|? ? Hx Hr]; subst. specialize (IH Hr).
    change (String.concat (String "010" "") (x :: y :: r))
      with (x ++ String "010" (String.concat (String "010" "") (y :: r))).
    assert (Hy : y <> "") by (inversion Hr as [|? ? [Hy _] _]; assumption).
    pose proof (join_not_empty (String "010" "") y r Hy) as Hj.
    change (x ++ String "010" (String.concat (String "010" "") (y :: r)))
      with (x ++ String "010" "" ++ String.concat (String "010" "") (y :: r)).
    rewrite <- StrFacts.append_assoc.
    rewrite rstrip_app; rewrite IH; [reflexivity | assumption].
Qed.

Lemma lstrip_join lines :
  Forall text_line lines ->
  Str.lstrip_where Str.isspace (Str.join (String "010" "") lines)
  = Str.join (String "010" "") lines.
Proof.
  unfold Str.join. intros Hf.
  destruct lines as [|x r]; [reflexivity|].
  inversion Hf as [|? ? [Hne [Hx _]] _]; subst.
  apply strip_fixed in Hx as [Hx _].
  destruct x as [|c x]; [contradiction|].
  assert (Hc : Str.isspace c = false).
  { destruct (Str.isspace c) eqn:E; [|reflexivity].
    simpl in Hx. rewrite E in Hx.
    pose proof (StrFacts.lstrip_length Str.isspace x) as L.
    rewrite Hx in L. simpl in L. lia. }
  destruct r as [|y r]; cbn [String.concat append Str.lstrip_where];
    now rewrite Hc.
Qed.

Lemma keep_text_lines lines :
  Forall text_line lines ->
  map (fun line => VStr (Str.strip line))
      (filter (fun line => negb (String.eqb (Str.strip line) "")) lines)
  = map VStr lines.
Proof.
  induction 1 as [|x r [Hne [Hx _]] _ IH]; [reflexivity|].
  cbn [filter]. rewrite Hx.
  apply String.eqb_neq in Hne. rewrite Hne. cbn [negb map].
  now rewrite Hx, IH.
Qed.

Lemma format_text_list_joins lines :
  lines <> [] ->
  format_text_list (VList (map VStr lines))
  = Ok (Str.join (String "010" "") lines).
Proof.
  intros Hne. unfold format_text_list.
  destruct lines as [|x r]; [contradiction|].
  cbn [map Py.truthy negb Py.iter bind].
  assert (Ha : forall l, all_str (map VStr l) = Ok l).
  { induction l as [|y l IH]; [reflexivity|].
    cbn [map all_str]. now rewrite IH. }
  change (VStr x :: map VStr r) with (map VStr (x :: r)).
  now rewrite Ha.
Qed.

Lemma text_records_of_join lines :
  lines <> [] ->
  Forall text_line lines ->
  text_records (Str.join (String "010" "") lines) = VList (map VStr lines).
Proof.
  intros Hne Hf.
  assert (Hs : Str.strip (Str.join (String "010" "") lines)
               = Str.join (String "010" "") lines).
  { unfold Str.strip. now rewrite lstrip_join, rstrip_join. }
  unfold text_records. rewrite Hs, split_join.
  - f_equal. now apply keep_text_lines.
  - assumption.
  - revert Hf. apply Forall_impl. now intros l [_ [_ Hl]].
Qed.

(** What the list formatter writes, the text branch of the fetcher reads
    back: for a non-empty list of lines (each non-empty, stripped, without
    line feed), the formatter joins them and [text_records] of the result is
    the list again. *)
Theorem text_list_round_trip lines :
  lines <> [] ->
  Forall text_line lines ->
  exists out,
    format_text_list (VList (map VStr lines)) = Ok out
    /\ out = Str.join (String "010" "") lines
    /\ text_records out = VList (map VStr lines).
Proof.
  intros Hne Hf. exists (Str.join (String "010" "") lines).
  split; [|split].
  - now apply format_text_list_joins.
  - reflexivity.
  - now apply text_records_of_join.
Qed.

Lemma text_list_round_trip_witness :
  exists out,
    format_text_list
      (VList (map VStr ["http://a.com/x.js"; "http://a.com/a b"])) = Ok out
    /\ out = Str.join (String "010" "") ["http://a.com/x.js"; "http://a.com/a b"]
    /\ text_records out
       = VList (map VStr ["http://a.com/x.js"; "http://a.com/a b"]).
Proof.
  apply (text_list_round_trip ["http://a.com/x.js"; "http://a.com/a b"]).
  - discriminate.
  - repeat constructor; discriminate.
Defined.

(** Parsing is stable under a save and reload: when a body yields at least
    one record, formatting the records as a list and parsing that text
    yields the same records. *)
Theorem text_records_reparse body :
  text_records body <> VList [] ->
  exists out,
    format_text_list (text_records body) = Ok out
    /\ text_records out = text_records body.
Proof.
  intros Hne. unfold text_records in *.
  destruct (kept_lines _ (split_no_sep "010" (Str.strip body)))
    as [lines [E F]].
  rewrite E in *.
  assert (Hl : lines <> []) by (intros ->; now apply Hne).
  exists (Str.join (String "010" "") lines). split.
  - now apply format_text_list_joins.
  - fold (text_records (Str.join (String "010" "") lines)).
    now apply text_records_of_join.
Qed.

Lemma text_records_reparse_witness :
  exists out,
    format_text_list
      (text_records (" http://a.com/1 " ++ String "010" (String "010" "http://a.com/2")))
    = Ok out
    /\ text_records out
       = text_records
           (" http://a.com/1 " ++ String "010" (String "010" "http://a.com/2")).
Proof.
  apply (text_records_reparse
           (" http://a.com/1 " ++ String "010" (String "010" "http://a.com/2"))).
  discriminate.
Defined.

(** ** The filters, continued *)

Lemma filter_idem {A} (f : A -> bool) l : filter f (filter f l) = filter f l.
Proof.
  induction l as [|x l IH]; simpl; [reflexivity|].
  destruct (f x) eqn:E; simpl; [now rewrite E, IH | assumption].
Qed.


Lemma Forall_filter {A} (P : A -> Prop) (f : A -> bool) l :
  Forall P l -> Forall P (filter f l).
Proof.
  induction 1 as [|x l Hx _ IH]; simpl; [constructor|].
  destruct (f x); [now constructor | assumption].
Qed.

(** What each filter returns on a list it can read, the empty criteria
    included. *)
Lemma filter_by_extensions_run records exts text_mode :
  Forall (well_shaped text_mode) records ->
  filter_by_extensions (VList records) exts text_mode
  = Ok (VList match exts with
              | [] => records
              | _ :: _ => filter (ext_keeps exts) records
              end).
Proof.
  intros Hw. destruct exts as [|e es]; [reflexivity|].
  unfold filter_by_extensions. cbn [Py.iter bind].
  now rewrite ext_loop_filter.
Qed.

Lemma filter_by_status_codes_run records codes :
  Forall status_readable records ->
  filter_by_status_codes (VList records) codes
  = Ok (VList match codes with
              | [] => records
              | _ :: _ => filter (status_keeps codes) records
              end).
Proof.
  intros Hr. destruct codes as [|c cs]; [reflexivity|].
  unfold filter_by_status_codes. cbn [Py.iter bind].
  now rewrite status_loop_filter.
Qed.

(** Text records pass the status-code filter untouched, whatever the codes:
    a list of plain strings comes back as it went in. *)
Theorem filter_by_status_codes_text_identity urls status_codes :
  filter_by_status_codes (VList (map VStr urls)) status_codes
  = Ok (VList (map VStr urls)).
Proof.
  rewrite filter_by_status_codes_run.
  - destruct status_codes as [|c cs]; [reflexivity|]. do 2 f_equal.
    induction urls as [|u urls IH]; [reflexivity|].
    cbn [map filter]. unfold status_keeps at 1. cbn [third_field].
    now rewrite IH.
  - induction urls as [|u urls IH]; constructor; [exact I | assumption].
Qed.

(** Filtering by extension twice with the same extensions gives what
    filtering once gives. *)
Theorem filter_by_extensions_idempotent records extensions text_mode :
  Forall (well_shaped text_mode) records ->
  exists kept,
    filter_by_extensions (VList records) extensions text_mode = Ok (VList kept)
    /\ filter_by_extensions (VList kept) extensions text_mode = Ok (VList kept).
Proof.
  intros Hw.
  exists (match extensions with
          | [] => records
          | _ :: _ => filter (ext_keeps extensions) records
          end).
  split; [now apply filter_by_extensions_run|].
  rewrite filter_by_extensions_run.
  - destruct extensions; [reflexivity | now rewrite filter_idem].
  - destruct extensions; [assumption | now apply Forall_filter].
Qed.

Lemma filter_by_extensions_idempotent_witness :
  exists kept,
    filter_by_extensions
      (VList [VStr "http://a.com/x.js"; VStr "http://a.com/y.png"])
      ["js"] true = Ok (VList kept)
    /\ filter_by_extensions (VList kept) ["js"] true = Ok (VList kept).
Proof.
  apply (filter_by_extensions_idempotent
           [VStr "http://a.com/x.js"; VStr "http://a.com/y.png"] ["js"] true).
  repeat constructor.
Defined.



Lemma status_loop_app codes pre rest :
  Forall status_readable pre ->
  forall filtered_data,
    status_loop codes (pre ++ rest) filtered_data
    = status_loop codes rest
        (filtered_data ++ filter (status_keeps codes) pre).
Proof.
  induction 1 as [|record pre Hr _ IH]; intros acc.
  - cbn [app filter]. now rewrite app_nil_r.
  - cbn [app status_loop filter].
    unfold status_readable in Hr. unfold status_keeps at 1.
    destruct record as [| | | |s|[|a [|b [|third more]]]|];
      cbn [third_field] in *; try apply IH.
    + rewrite IH, <- app_assoc. reflexivity.
    + destruct Hr as [n Hn]. rewrite Hn. cbn [bind].
      destruct (Py.mem_int n codes); [|apply IH].
      rewrite IH, <- app_assoc. reflexivity.
Qed.

Lemma status_loop_stops codes pre record post third e :
  Forall status_readable pre ->
  third_field record = Some third ->
  Py.int third = Raise e ->
  forall filtered_data,
    status_loop codes (pre ++ record :: post) filtered_data = Raise e.
Proof.
  intros Hpre Ht He acc. rewrite status_loop_app by assumption.
  destruct record as [| | | |s|[|a [|b [|t more]]]|];
    cbn [third_field] in Ht; try discriminate.
  injection Ht as ->. cbn [status_loop]. now rewrite He.
Qed.



Lemma ext_loop_app exts text_mode pre rest :
  Forall (well_shaped text_mode) pre ->
  forall filtered_data,
    ext_loop (map normalize_ext exts) text_mode (pre ++ rest) filtered_data
    = ext_loop (map normalize_ext exts) text_mode rest
        (filtered_data ++ filter (ext_keeps exts) pre).
Proof.
  induction 1 as [|record pre Hr _ IH]; intros acc.
  - cbn [app filter]. now rewrite app_nil_r.
  - cbn [app ext_loop filter].
    assert (E : exists u, url_of_record record = Some u
                          /\ record_url text_mode record = Ok (VStr u)).
    { destruct record as [| | | |u|[|[] items]|]; try contradiction;
        destruct text_mode; simpl in *; try discriminate; eauto. }
    destruct E as [u [Eu Er]]. rewrite Er. cbn [bind Py.lower].
    replace (ext_keeps exts record)
      with (any_endswith (Str.lower u) (map normalize_ext exts))
      by (unfold ext_keeps; now rewrite Eu).
    destruct (any_endswith (Str.lower u) (map normalize_ext exts));
      [|apply IH].
    rewrite IH, <- app_assoc. reflexivity.
Qed.

(** The first record of a wrong shape stops the extension filter:
    [IndexError] for an empty list in JSON mode, [AttributeError] when the
    URL is not a string (in text mode, any record that is not a string). *)
Theorem filter_by_extensions_error pre record post extensions text_mode :
  extensions <> [] ->
  Forall (well_shaped text_mode) pre ->
  ~ well_shaped text_mode record ->
  filter_by_extensions (VList (pre ++ record :: post)) extensions text_mode
  = Raise (shape_error text_mode record).
Proof.
  intros Hne Hpre Hbad. unfold filter_by_extensions.
  destruct extensions as [|e es]; [contradiction|].
  cbn [Py.iter bind]. rewrite ext_loop_app by assumption.
  cbn [ext_loop].
  destruct text_mode, record as [| | | |s|[|[] items]|];
    simpl in Hbad; try (exfalso; apply Hbad; trivial; fail); reflexivity.
Qed.

Lemma filter_by_extensions_error_witness :
  filter_by_extensions
    (VList ([VList [VStr "http://a.com/x.js"; VStr "2020"; VStr "200"]]
            ++ VList [] :: [VStr "http://a.com/y.js"]))
    ["js"] false
  = Raise IndexError.
Proof.
  apply (filter_by_extensions_error
           [VList [VStr "http://a.com/x.js"; VStr "2020"; VStr "200"]]
           (VList []) [VStr "http://a.com/y.js"] ["js"] false).
  - discriminate.
  - repeat constructor.
  - intros H. exact H.
Defined.

(** ** The formatters, continued *)

Section TableShape.

Variable py_str : value -> string.

Lemma spaces_length n : String.length (Str.spaces n) = n.
Proof. induction n as [|n IH]; simpl; [reflexivity | now rewrite IH]. Qed.

Lemma repeat_length c n : String.length (Str.repeat c n) = n.
Proof. induction n as [|n IH]; simpl; [reflexivity | now rewrite IH]. Qed.

Lemma ljust_length s w :
  (String.length s <= w)%nat -> String.length (Str.ljust s w) = w.
Proof.
  intros H. unfold Str.ljust. rewrite string_length_app, spaces_length. lia.
Qed.

Lemma column_widths_triples records :
  Forall is_triple records ->
  forall a b c,
    exists a' b' c',
      column_widths py_str records [a; b; c] = Ok [a'; b'; c']
      /\ (a <= a')%nat /\ (b <= b')%nat /\ (c <= c')%nat
      /\ Forall (fields_fit py_str a' b' c') records.
Proof.
  induction 1 as [|record records [x [y [z ->]]] _ IH]; intros a b c.
  - exists a, b, c. repeat split; try lia. constructor.
  - cbn [column_widths Py.iter bind].
    change (widen py_str 0 [x; y; z] [a; b; c])
      with [Nat.max a (String.length (py_str x));
            Nat.max b (String.length (py_str y));
            Nat.max c (String.length (py_str z))].
    destruct (IH (Nat.max a (String.length (py_str x)))
                 (Nat.max b (String.length (py_str y)))
                 (Nat.max c (String.length (py_str z))))
      as [a' [b' [c' [E [Ha [Hb [Hc Hf]]]]]]].
    exists a', b', c'. repeat split; try assumption; try lia.
    constructor; [|assumption]. unfold fields_fit. lia.
Qed.

Lemma row_lines_triples a b c records :
  Forall (fields_fit py_str a b c) records ->
  exists rows,
    row_lines py_str records [a; b; c] = Ok rows
    /\ List.length rows = List.length records
    /\ Forall (fun row => String.length row = (a + b + c + 6)%nat) rows.
Proof.
  induction 1 as [|record records Hr _ [rows [E [L F]]]].
  - exists []. repeat split. constructor.
  - destruct record as [| | | | |[|x [|y [|z [|]]]]|]; try contradiction.
    destruct Hr as [Hx [Hy Hz]].
    cbn [row_lines Py.iter bind]. rewrite E. cbn [bind].
    eexists. split; [reflexivity|]. split; [simpl; now rewrite L|].
    constructor; [|assumption].
    cbn [combine map fst snd Str.join String.concat].
    rewrite !string_length_app, !ljust_length by assumption. simpl. lia.
Qed.

(** For a non-empty list of three-field records the table is a rectangle:
    a header line, a rule of dashes as long as the header, and one row per
    record, every row as long as the header; the header is never shorter
    than its three labels and two separators take (33 characters). *)
Theorem format_json_table_rectangular records :
  records <> [] ->
  Forall is_triple records ->
  exists header rows,
    format_json_table py_str (VList records)
    = Ok (Str.join (String "010" "")
            (header :: Str.repeat "-" (String.length header) :: rows))
    /\ List.length rows = List.length records
    /\ Forall (fun row => String.length row = String.length header) rows
    /\ (33 <= String.length header)%nat.
Proof.
  intros Hne Ht. unfold format_json_table.
  destruct records as [|r0 rs] eqn:Er; [contradiction|]. rewrite <- Er in *.
  replace (Py.truthy (VList records)) with true by (now rewrite Er).
  cbn [negb Py.iter bind map String.length].
  destruct (column_widths_triples records Ht 8%nat 9%nat 10%nat)
    as [a [b [c [E [Ha [Hb [Hc Hf]]]]]]].
  rewrite E. cbn [bind].
  destruct (row_lines_triples a b c records Hf) as [rows [Erows [L F]]].
  rewrite Erows. cbn [bind].
  assert (Hh : String.length
                 (Str.join " | "
                    (map (fun hw => Str.ljust (fst hw) (snd hw))
                       (combine ["original"; "timestamp"; "statuscode"]
                                [a; b; c])))
               = (a + b + c + 6)%nat).
  { cbn [combine map fst snd Str.join String.concat].
    rewrite !string_length_app, !ljust_length by (simpl; lia). simpl. lia. }
  eexists. exists rows. split; [reflexivity|].
  rewrite Hh. repeat split; [assumption | assumption | lia].
Qed.

End TableShape.

Lemma format_json_table_rectangular_witness :
  exists header rows,
    format_json_table str_of_text
      (VList [VList [VStr "http://test.com/a.html"; VStr "20200101000000";
                     VStr "200"]])
    = Ok (Str.join (String "010" "")
            (header :: Str.repeat "-" (String.length header) :: rows))
    /\ List.length rows = 1%nat
    /\ Forall (fun row => String.length row = String.length header) rows
    /\ (33 <= String.length header)%nat.
Proof.
  apply (format_json_table_rectangular str_of_text
           [VList [VStr "http://test.com/a.html"; VStr "20200101000000";
                   VStr "200"]]).
  - discriminate.
  - repeat constructor. now exists (VStr "http://test.com/a.html"),
      (VStr "20200101000000"), (VStr "200").
Defined.

Lemma iter_raises v e : Py.iter v = Raise e -> e = TypeError.
Proof. destruct v; simpl; intros H; try discriminate; now injection H. Qed.

Lemma column_widths_raises py_str data widths e :
  column_widths py_str data widths = Raise e -> e = TypeError.
Proof.
  revert widths. induction data as [|r data IH]; intros widths;
    cbn [column_widths]; [discriminate|].
  destruct (Py.iter r) eqn:Ei; cbn [bind].
  - apply IH.
  - intros H. injection H as <-. now apply iter_raises in Ei.
Qed.

Lemma row_lines_raises py_str data widths e :
  row_lines py_str data widths = Raise e -> e = TypeError.
Proof.
  induction data as [|r data IH]; cbn [row_lines]; [discriminate|].
  destruct (Py.iter r) eqn:Ei; cbn [bind].
  - destruct (row_lines py_str data widths); cbn [bind];
      [discriminate | assumption].
  - intros H. injection H as <-. now apply iter_raises in Ei.
Qed.

Lemma all_str_raises items e : all_str items = Raise e -> e = TypeError.
Proof.
  induction items as [|v items IH]; cbn [all_str]; [discriminate|].
  destruct v; try (intros H; now injection H).
  destruct (all_str items); cbn [bind]; [discriminate | assumption].
Qed.

(** The two formatters raise nothing but [TypeError]: the table formatter
    when the data or a record cannot be iterated, the list formatter when
    the data cannot be iterated or an item is not a string. *)
Theorem formatters_raise_only_TypeError py_str data e :
  format_json_table py_str data = Raise e \/ format_text_list data = Raise e ->
  e = TypeError.
Proof.
  unfold format_json_table, format_text_list.
  destruct (negb (Py.truthy data)); [intros [H | H]; discriminate|].
  destruct (Py.iter data) as [records|e'] eqn:Ei; cbn [bind].
  - intros [H | H].
    + destruct (column_widths py_str records _) as [ws|e'] eqn:Ec; cbn [bind] in H.
      * destruct (row_lines py_str records ws) as [rows|e'] eqn:Er;
          cbn [bind] in H; [discriminate|].
        injection H as <-. now apply row_lines_raises in Er.
      * injection H as <-. now apply column_widths_raises in Ec.
    + destruct (all_str records) eqn:Ea; cbn [bind] in H; [discriminate|].
      injection H as <-. now apply all_str_raises in Ea.
  - apply iter_raises in Ei. subst.
    intros [H | H]; now injection H.
Qed.

Lemma formatters_raise_only_TypeError_witness : TypeError = TypeError.
Proof.
  apply (formatters_raise_only_TypeError str_of_text
           (VList [VStr "http://a.com/"; VInt 7]) TypeError).
  right. reflexivity.
Defined.

(** ** The run as a whole *)




















(** The run consults the session at one URL only, the one built from the
    normalized domain and the mode: two worlds that answer that URL alike,
    and agree on files and interrupts, give the same exit status. *)
Theorem main_queries_one_url ok py_str w w' argc a :
  (forall domain nd,
     url a = Some domain -> normalize_domain ok domain = Ok nd ->
     session_get w (build_cdx_url nd (text_flag a))
     = session_get w' (build_cdx_url nd (text_flag a))) ->
  (forall f c, write_file w f c = write_file w' f c) ->
  (forall st, interrupted w st = interrupted w' st) ->
  main ok py_str w argc a = main ok py_str w' argc a.
Proof.
  intros Hs Hw Hi. unfold main.
  destruct (argc =? 1)%nat; [reflexivity|].
  destruct (url a) as [[|ch domain]|] eqn:Eu; try reflexivity.
  assert (E : try_body ok py_str w a (String ch domain)
              = try_body ok py_str w' a (String ch domain)).
  { unfold try_body, produce_output, deliver, save_to_file, checkpoint,
      fetch_cdx_data.
    rewrite !Hi.
    destruct (interrupted w' Normalizing); [reflexivity|]. cbn [bind].
    destruct (normalize_domain ok (String ch domain)) as [nd|e] eqn:En;
      [|reflexivity].
    cbn [bind]. rewrite (Hs _ nd eq_refl En).
    destruct (interrupted w' Fetching); [reflexivity|]. cbn [bind].
    match goal with
    | |- bind ?m ?k = bind ?m ?k' =>
        destruct m as [content|e']; [|reflexivity]
    end.
    cbn [bind]. destruct (output a) as [[|c f]|]; try reflexivity.
    rewrite Hw. reflexivity. }
  now rewrite E.
Qed.

Lemma main_queries_one_url_witness :
  main accept_all str_of_text world_read_only 3 (args_for "example.com" None)
  = main accept_all str_of_text
      {| session_get := fun u =>
           if String.eqb u (build_cdx_url "example.com" false)
           then twice_headed_session u else Raise RequestException;
         write_file := fun _ _ => Raise OSError;
         interrupted := never_interrupted |}
      3 (args_for "example.com" None).
Proof.
  apply (main_queries_one_url accept_all str_of_text).
  - intros domain nd H. injection H as <-. intros H. injection H as <-.
    reflexivity.
  - reflexivity.
  - reflexivity.
Defined.

(** ** Runs that succeed *)

Lemma well_shaped_iterable tm r :
  well_shaped tm r -> exists fields, Py.iter r = Ok fields.
Proof.
  destruct r as [| | | |s|items|]; try contradiction; simpl; eauto.
Qed.

Lemma column_widths_ok py_str tm records :
  Forall (well_shaped tm) records ->
  forall widths, exists ws, column_widths py_str records widths = Ok ws.
Proof.
  induction 1 as [|r records Hr _ IH]; intros widths; cbn [column_widths].
  - eauto.
  - destruct (well_shaped_iterable _ _ Hr) as [fields ->]. cbn [bind].
    apply IH.
Qed.

Lemma row_lines_ok py_str tm records widths :
  Forall (well_shaped tm) records ->
  exists rows, row_lines py_str records widths = Ok rows.
Proof.
  induction 1 as [|r records Hr _ [rows IH]]; cbn [row_lines].
  - eauto.
  - destruct (well_shaped_iterable _ _ Hr) as [fields ->]. cbn [bind].
    rewrite IH. cbn [bind]. eauto.
Qed.

Lemma all_str_ok records :
  Forall (well_shaped true) records -> exists parts, all_str records = Ok parts.
Proof.
  induction 1 as [|r records Hr _ [parts IH]]; cbn [all_str].
  - eauto.
  - destruct r as [| | | |s|[|[] items]|]; simpl in Hr;
      try contradiction; try discriminate.
    rewrite IH. cbn [bind]. eauto.
Qed.

(** On records of the shapes of the mode, the formatter of the mode
    returns. *)
Lemma format_ok py_str tm records :
  Forall (well_shaped tm) records ->
  exists out,
    (if tm then format_text_list (VList records)
     else format_json_table py_str (VList records)) = Ok out.
Proof.
  intros Hw. destruct tm.
  - unfold format_text_list. destruct (negb _); [eauto|].
    cbn [Py.iter bind]. destruct (all_str_ok records Hw) as [parts ->].
    cbn [bind]. eauto.
  - unfold format_json_table. destruct (negb _); [eauto|].
    cbn [Py.iter bind].
    destruct (column_widths_ok py_str false records Hw
                (map String.length ["original"; "timestamp"; "statuscode"]))
      as [ws ->].
    cbn [bind].
    destruct (row_lines_ok py_str false records ws Hw) as [rows ->].
    cbn [bind]. eauto.
Qed.

(** The [try] block runs to its end when nothing outside fails and the
    records are well formed. *)
Lemma try_body_ok ok py_str w a domain nd r records :
  normalize_domain ok domain = Ok nd ->
  (forall st, interrupted w st = false) ->
  session_get w (build_cdx_url nd (text_flag a)) = Ok r ->
  raise_for_status r = Ok tt ->
  parse_response r = Ok (VList records) ->
  Forall (well_shaped (text_flag a)) records ->
  Forall status_readable records ->
  (forall f c, write_file w f c = Ok tt) ->
  try_body ok py_str w a domain = Ok tt.
Proof.
  intros Hn Hi Hg Hs Hp Hw Hr Hf.
  assert (Ho : exists out, produce_output ok py_str w a domain = Ok out).
  { unfold produce_output, checkpoint, fetch_cdx_data.
    rewrite !Hi. cbn [bind]. rewrite Hn. cbn [bind].
    rewrite Hg. cbn [bind]. rewrite Hs. cbn [bind]. rewrite Hp.
    cbn [bind Py.len].
    set (recs1 := match ext a with
                  | Some (e :: es) => filter (ext_keeps (e :: es)) records
                  | _ => records
                  end).
    assert (E1 : match ext a with
                 | Some (e :: es) =>
                     filter_by_extensions (VList records) (e :: es) (text_flag a)
                 | _ => Ok (VList records)
                 end = Ok (VList recs1)).
    { subst recs1. destruct (ext a) as [[|e es]|]; try reflexivity.
      now rewrite filter_by_extensions_run. }
    rewrite E1. cbn [bind].
    assert (W1 : Forall (well_shaped (text_flag a)) recs1).
    { subst recs1. destruct (ext a) as [[|e es]|]; try assumption.
      now apply Forall_filter. }
    assert (R1 : Forall status_readable recs1).
    { subst recs1. destruct (ext a) as [[|e es]|]; try assumption.
      now apply Forall_filter. }
    set (recs2 := match status a with
                  | Some (c :: cs) =>
                      if text_flag a then recs1
                      else filter (status_keeps (c :: cs)) recs1
                  | _ => recs1
                  end).
    assert (E2 : match status a with
                 | Some (c :: cs) =>
                     if text_flag a then Ok (VList recs1)
                     else filter_by_status_codes (VList recs1) (c :: cs)
                 | _ => Ok (VList recs1)
                 end = Ok (VList recs2)).
    { subst recs2. destruct (status a) as [[|c cs]|]; try reflexivity.
      destruct (text_flag a); [reflexivity|].
      now rewrite filter_by_status_codes_run. }
    rewrite E2. cbn [bind].
    assert (W2 : Forall (well_shaped (text_flag a)) recs2).
    { subst recs2. destruct (status a) as [[|c cs]|]; try assumption.
      destruct (text_flag a); [assumption | now apply Forall_filter]. }
    exact (format_ok py_str (text_flag a) recs2 W2). }
  destruct Ho as [out Ho]. unfold try_body. rewrite Ho. cbn [bind].
  unfold deliver, checkpoint, save_to_file.
  destruct (output a) as [[|c f]|]; try reflexivity.
  rewrite Hi. cbn [bind]. now rewrite Hf.
Qed.



(** In text mode a plain-text answer never makes the run fail: once the
    domain normalizes and the GET succeeds with a body that is not declared
    JSON, the run exits 0 whatever the body holds and whatever extensions
    and status codes are asked for. *)
Theorem text_mode_run_exits_0 ok py_str w argc a domain nd r :
  argc <> 1%nat ->
  url a = Some domain -> domain <> "" ->
  text_flag a = true ->
  normalize_domain ok domain = Ok nd ->
  (forall st, interrupted w st = false) ->
  session_get w (build_cdx_url nd true) = Ok r ->
  raise_for_status r = Ok tt ->
  Str.contains "application/json"
    (match content_type r with Some c => c | None => "" end) = false ->
  (forall f c, write_file w f c = Ok tt) ->
  main ok py_str w argc a = 0.
Proof.
  intros Hargc Hu Hd Ht Hn Hi Hg Hs Hc Hf.
  destruct (kept_lines _ (split_no_sep "010" (Str.strip (text r))))
    as [lines [E F]].
  assert (Hl : forall l : list string,
            Forall (well_shaped true) (map VStr l)
            /\ Forall status_readable (map VStr l)).
  { induction l as [|x l [IH1 IH2]]; split; constructor;
      try assumption; exact I. }
  apply Nat.eqb_neq in Hargc. unfold main. rewrite Hargc, Hu.
  destruct domain as [|ch domain]; [contradiction|].
  rewrite (try_body_ok ok py_str w a _ nd r (map VStr lines));
    try assumption; try reflexivity.
  - now rewrite Ht.
  - unfold parse_response, text_records. now rewrite Hc, E.
  - rewrite Ht. apply Hl.
  - apply Hl.
Qed.

Lemma text_mode_run_exits_0_witness :
  main accept_all str_of_text
       (text_world ("http://a.com/x.js" ++ String "010" " http://a.com/y.png "))
       6
       {| url := Some "www.a.com"; output := None; text_flag := true;
          ext := Some [".JS"]; status := Some [404] |}
  = 0.
Proof.
  apply (text_mode_run_exits_0 accept_all str_of_text
           (text_world ("http://a.com/x.js" ++ String "010" " http://a.com/y.png "))
           6
           {| url := Some "www.a.com"; output := None; text_flag := true;
              ext := Some [".JS"]; status := Some [404] |}
           "www.a.com" "a.com"
           {| raise_for_status := Ok tt;
              content_type := Some "text/plain";
              json := Raise JSONDecodeError;
              text := "http://a.com/x.js" ++ String "010" " http://a.com/y.png " |});
    try reflexivity; try discriminate.
Defined.

(** ** More on the filters, the fetcher and the normalizer *)



(** With codes to filter by, what the status-code filter returns holds
    text records and lists of three elements or more, nothing else: shorter
    lists and values of other types are dropped without a word. *)
Theorem filter_by_status_codes_result_shapes records status_codes kept :
  status_codes <> [] ->
  filter_by_status_codes (VList records) status_codes = Ok (VList kept) ->
  Forall (fun r => (exists s, r = VStr s) \/ (exists t, third_field r = Some t))
         kept.
Proof.
  intros Hne. unfold filter_by_status_codes.
  destruct status_codes as [|c cs]; [contradiction|]. clear Hne.
  cbn [Py.iter bind].
  assert (H : forall data acc out,
    Forall (fun r => (exists s, r = VStr s)
                     \/ (exists t, third_field r = Some t)) acc ->
    status_loop (c :: cs) data acc = Ok out ->
    Forall (fun r => (exists s, r = VStr s)
                     \/ (exists t, third_field r = Some t)) out).
  { induction data as [|r data IH]; intros acc out Hacc; cbn [status_loop].
    - intros E. now injection E as <-.
    - destruct r as [| | | |s|[|a [|b [|third more]]]|]; try apply (IH _ _ Hacc).
      + apply IH. apply Forall_app. split; [assumption|].
        constructor; [left; eauto | constructor].
      + destruct (Py.int third) as [n|e]; cbn [bind]; [|discriminate].
        destruct (Py.mem_int n (c :: cs)); [|apply (IH _ _ Hacc)].
        apply IH. apply Forall_app. split; [assumption|].
        constructor; [right; simpl; eauto | constructor]. }
  destruct (status_loop (c :: cs) records []) as [out|e] eqn:E;
    cbn [bind]; [|discriminate].
  intros E'. injection E' as <-. apply (H records [] out); [constructor | exact E].
Qed.

Lemma filter_by_status_codes_result_shapes_witness :
  Forall (fun r => (exists s, r = VStr s) \/ (exists t, third_field r = Some t))
         [VStr "http://a.com/t";
          VList [VStr "http://a.com/"; VStr "2020"; VStr "200"; VStr "extra"]].
Proof.
  apply (filter_by_status_codes_result_shapes
           [VList [VStr "http://a.com/short"; VStr "2020"];
            VNone;
            VStr "http://a.com/t";
            VInt 200;
            VList [VStr "http://a.com/"; VStr "2020"; VStr "200"; VStr "extra"]]
           [200]).
  - discriminate.
  - reflexivity.
Defined.

(** A header row that the fetcher leaves in stops the status-code filter:
    when the JSON body starts with the header row twice, the fetcher drops
    one, and filtering what it returns by any status codes raises
    [ValueError], since [int("statuscode")] fails. *)
Theorem doubled_header_stops_status_filter
    session_get u r ctype rest status_codes :
  session_get u = Ok r ->
  raise_for_status r = Ok tt ->
  content_type r = Some ctype ->
  Str.contains "application/json" ctype = true ->
  json r = Ok (VList (header_row :: header_row :: rest)) ->
  status_codes <> [] ->
  (data <- fetch_cdx_data session_get u ;;
   filter_by_status_codes data status_codes) = Raise ValueError.
Proof.
  intros Hg Hs Hc Hj Hb Hne.
  unfold fetch_cdx_data, parse_response.
  rewrite Hg. cbn [bind]. rewrite Hs. cbn [bind]. rewrite Hc, Hj, Hb.
  cbn [bind].
  change (strip_header (VList (header_row :: header_row :: rest)))
    with (VList ([] ++ header_row :: rest)).
  unfold filter_by_status_codes.
  destruct status_codes as [|c cs]; [contradiction|].
  cbn [Py.iter bind].
  rewrite (status_loop_stops _ [] header_row rest (VStr "statuscode")
             ValueError); try reflexivity. constructor.
Qed.

Lemma doubled_header_stops_status_filter_witness :
  (data <- fetch_cdx_data twice_headed_session
             (build_cdx_url "test.com" false) ;;
   filter_by_status_codes data [200]) = Raise ValueError.
Proof.
  refine (doubled_header_stops_status_filter twice_headed_session
            (build_cdx_url "test.com" false) _ _ _ [200]
            eq_refl eq_refl eq_refl eq_refl eq_refl _).
  discriminate.
Defined.

Lemma set_nth_same i widths :
  set_nth i (nth i widths O) widths = widths.
Proof.
  revert i. induction widths as [|w ws IH]; intros [|i]; simpl;
    try reflexivity. now rewrite IH.
Qed.

Lemma nth_positive i (widths : list nat) :
  Forall (fun w => (1 <= w)%nat) widths ->
  (i < List.length widths)%nat -> (1 <= nth i widths O)%nat.
Proof.
  intros Hf. revert i. induction Hf as [|w ws Hw _ IH]; intros [|i]; simpl;
    try lia. intros H. apply IH. lia.
Qed.

Section TableOfText.

Variable py_str : value -> string.
Hypothesis py_str_text : forall s, py_str (VStr s) = s.

Lemma widen_chars s :
  forall i widths,
    Forall (fun w => (1 <= w)%nat) widths ->
    widen py_str i (Py.chars s) widths = widths.
Proof.
  induction s as [|c s IH]; intros i widths Hw; cbn [Py.chars widen];
    [reflexivity|].
  destruct (i <? List.length widths)%nat eqn:E; [|now apply IH].
  apply Nat.ltb_lt in E. pose proof (nth_positive i widths Hw E) as Hn.
  rewrite py_str_text. cbn [String.length].
  rewrite Nat.max_l by assumption. rewrite set_nth_same. now apply IH.
Qed.

Lemma column_widths_text lines widths :
  Forall (fun w => (1 <= w)%nat) widths ->
  column_widths py_str (map VStr lines) widths = Ok widths.
Proof.
  intros Hw. induction lines as [|l lines IH]; [reflexivity|].
  cbn [map column_widths Py.iter bind]. now rewrite widen_chars.
Qed.

Lemma combine_chars s (widths : list nat) :
  map (fun fw => Str.ljust (py_str (fst fw)) (snd fw))
      (combine (Py.chars s) widths)
  = map (fun cw => Str.ljust (String (fst cw) "") (snd cw))
        (combine (list_ascii_of_string s) widths).
Proof.
  revert widths. induction s as [|c s IH]; intros [|w ws]; try reflexivity.
  cbn [Py.chars list_ascii_of_string combine map fst snd].
  now rewrite py_str_text, IH.
Qed.

Lemma row_lines_text lines :
  row_lines py_str (map VStr lines) [8%nat; 9%nat; 10%nat]
  = Ok (map char_row lines).
Proof.
  induction lines as [|l lines IH]; [reflexivity|].
  cbn [map row_lines Py.iter bind]. rewrite IH. cbn [bind].
  unfold char_row. now rewrite combine_chars.
Qed.

(** Given text records, the table formatter iterates over each string: no
    column is widened, and each row shows the first three characters of the
    URL, one per column, and drops the rest. *)
Theorem format_json_table_of_text lines :
  lines <> [] ->
  format_json_table py_str (VList (map VStr lines))
  = Ok (Str.join (String "010" "")
          ("original | timestamp | statuscode"
           :: Str.repeat "-" 33 :: map char_row lines)).
Proof.
  intros Hne. unfold format_json_table.
  destruct lines as [|l0 ls] eqn:El; [contradiction|]. rewrite <- El.
  replace (Py.truthy (VList (map VStr lines))) with true by (now rewrite El).
  cbn [negb Py.iter bind map String.length].
  rewrite column_widths_text by (repeat constructor; lia).
  cbn [bind]. rewrite row_lines_text. reflexivity.
Qed.

End TableOfText.

Lemma format_json_table_of_text_witness :
  format_json_table str_of_text (VList (map VStr ["http://a.com/x.js"]))
  = Ok (Str.join (String "010" "")
          ["original | timestamp | statuscode";
           Str.repeat "-" 33;
           "h        | t         | t         "]).
Proof.
  apply (format_json_table_of_text str_of_text (fun s => eq_refl)
           ["http://a.com/x.js"]).
  discriminate.
Defined.

(** A URL whose host part opens a bracket and never closes it cannot be
    normalized: [ValueError], whatever the host check and whatever follows
    the host. *)
Theorem normalize_domain_unbalanced_bracket ok h rest :
  Str.forallb is_netloc_char h = true ->
  Str.mem "[" h = true -> Str.mem "]" h = false ->
  url_tail rest ->
  normalize_domain ok ("http://" ++ h ++ rest) = Raise ValueError
  /\ normalize_domain ok ("https://" ++ h ++ rest) = Raise ValueError.
Proof.
  intros Hh Hl Hb Hr.
  assert (Hu : Str.forallb (fun c => negb (UrlParse.is_unsafe c)) h = true).
  { revert Hh. apply forallb_weaken. intros c. unfold is_netloc_char.
    destruct (UrlParse.is_unsafe c);
      [rewrite orb_true_r; discriminate | reflexivity]. }
  assert (He : Str.forallb (fun c => negb (UrlParse.is_netloc_end c)) h = true).
  { revert Hh. apply forallb_weaken. intros c. unfold is_netloc_char.
    destruct (UrlParse.is_netloc_end c); [discriminate | reflexivity]. }
  pose proof (url_tail_after_removal rest Hr) as Ht.
  assert (Hp : forall x, prefix "" x = true) by (intros []; reflexivity).
  assert (N : UrlParse.netloc ok ("http://" ++ h ++ rest) = Raise ValueError
              /\ UrlParse.netloc ok ("https://" ++ h ++ rest) = Raise ValueError).
  { unfold UrlParse.netloc.
    split; cbn; rewrite (remove_where_plain _ _ _ Hu);
      rewrite (take_until_plain _ _ _ He Ht), Hl, Hb, Hp; reflexivity. }
  destruct N as [N1 N2].
  assert (S1 : (Str.startswith ("http://" ++ h ++ rest) "http://"
                || Str.startswith ("http://" ++ h ++ rest) "https://")%bool
               = true).
  { apply orb_true_iff. left. apply StrFacts.startswith_iff. eauto. }
  assert (S2 : (Str.startswith ("https://" ++ h ++ rest) "http://"
                || Str.startswith ("https://" ++ h ++ rest) "https://")%bool
               = true).
  { apply orb_true_iff. right. apply StrFacts.startswith_iff. eauto. }
  unfold normalize_domain. rewrite S1, S2, N1, N2. split; reflexivity.
Qed.

Lemma normalize_domain_unbalanced_bracket_witness :
  normalize_domain accept_all ("http://" ++ "[::1" ++ "/index.html")
  = Raise ValueError
  /\ normalize_domain accept_all ("https://" ++ "[::1" ++ "/index.html")
     = Raise ValueError.
Proof.
  apply (normalize_domain_unbalanced_bracket accept_all "[::1" "/index.html");
    reflexivity.
Defined.

(** The fetcher adds no failure of its own: when it raises, the session
    raised on the GET, or the status check of the response raised, or the
    response is declared JSON and its decoding raised; a body read as text
    always parses. *)
Theorem fetch_cdx_data_raises_from_outside session_get u e :
  fetch_cdx_data session_get u = Raise e ->
  session_get u = Raise e
  \/ exists r,
       session_get u = Ok r
       /\ (raise_for_status r = Raise e
           \/ (Str.contains "application/json"
                 (match content_type r with Some c => c | None => "" end)
               = true
               /\ json r = Raise e)).
Proof.
  unfold fetch_cdx_data, parse_response.
  destruct (session_get u) as [r|e0]; cbn [bind].
  - intros H. right. exists r. split; [reflexivity|].
    destruct (raise_for_status r) as [[]|e1]; cbn [bind] in H.
    + right. destruct (Str.contains _ _); [|discriminate].
      split; [reflexivity|].
      destruct (json r) as [d|e2]; cbn [bind] in H; [discriminate|].
      now injection H as ->.
    + left. now injection H as ->.
  - intros H. left. now injection H as ->.
Qed.

Lemma fetch_cdx_data_raises_from_outside_witness :
  session_get world_bad_json "https://x" = Raise JSONDecodeError
  \/ exists r,
       session_get world_bad_json "https://x" = Ok r
       /\ (raise_for_status r = Raise JSONDecodeError
           \/ (Str.contains "application/json"
                 (match content_type r with Some c => c | None => "" end)
               = true
               /\ json r = Raise JSONDecodeError)).
Proof.
  apply (fetch_cdx_data_raises_from_outside
           (session_get world_bad_json) "https://x" JSONDecodeError).
  reflexivity.
Defined.

Lemma ext_keeps_more exts more r :
  ext_keeps exts r = true -> ext_keeps (exts ++ more) r = true.
Proof.
  unfold ext_keeps, any_endswith. destruct (url_of_record r); [|trivial].
  rewrite map_app, existsb_app. intros ->. reflexivity.
Qed.

(** Asking for more extensions never loses a record: what the filter keeps
    for a list of extensions it also keeps for a longer list. *)
Theorem filter_by_extensions_monotone
    records extensions more text_mode kept kept' :
  extensions <> [] ->
  Forall (well_shaped text_mode) records ->
  filter_by_extensions (VList records) extensions text_mode = Ok (VList kept) ->
  filter_by_extensions (VList records) (extensions ++ more) text_mode
  = Ok (VList kept') ->
  forall r, In r kept -> In r kept'.
Proof.
  intros Hne Hw. rewrite !filter_by_extensions_run by assumption.
  destruct extensions as [|e es]; [contradiction|]. cbn [app].
  intros H H'. injection H as <-. injection H' as <-.
  intros r Hr. apply filter_In in Hr as [Hin Hk]. apply filter_In.
  split; [assumption|]. now apply (ext_keeps_more (e :: es) more).
Qed.

Lemma filter_by_extensions_monotone_witness :
  In (VStr "http://a.com/x.js")
     [VStr "http://a.com/x.js"; VStr "http://a.com/y.png"].
Proof.
  apply (filter_by_extensions_monotone
           [VStr "http://a.com/x.js"; VStr "http://a.com/y.png";
            VStr "http://a.com/z.gif"]
           ["js"] ["png"] true
           [VStr "http://a.com/x.js"]
           [VStr "http://a.com/x.js"; VStr "http://a.com/y.png"]).
  - discriminate.
  - repeat constructor.
  - reflexivity.
  - reflexivity.
  - left. reflexivity.
Defined.
